(** * Shallow embedding of the AI gateway service (ai/run.py)

    The Flask module exposes two authenticated endpoints,
    [/api/random-phrase] and [/api/translate].  Every value that flows
    through them is a parsed JSON value, so Python objects are modelled by
    the type [json], Python's [None] being [JNull].  The external
    collaborators (identity service, profile table, agent pipelines) are the
    fields of an environment record; a run of a handler yields the ordered
    list of external calls it made together with its outcome. *)

From Stdlib Require Import String Ascii List Bool ZArith Lia.
Import ListNotations.
Open Scope string_scope.
Open Scope list_scope.
Set Warnings "-register-all".

(** ** Python values *)

(** JSON numbers are kept as integers: the handlers only look at the type
    tag and at the truth value (non-zero) of a number. *)
Inductive json : Type :=
| JNull
| JBool (b : bool)
| JNum (n : Z)
| JStr (s : string)
| JList (l : list json)
| JObj (d : list (string * json)).

(** [bool(v)] *)
Definition truthy (v : json) : bool :=
  match v with
  | JNull => false
  | JBool b => b
  | JNum n => negb (Z.eqb n 0)
  | JStr s => negb (String.eqb s "")
  | JList l => match l with [] => false | _ :: _ => true end
  | JObj d => match d with [] => false | _ :: _ => true end
  end.

(** [a or b] *)
Definition py_or (a b : json) : json := if truthy a then a else b.

(** [type(v).__name__] *)
Definition type_name (v : json) : string :=
  match v with
  | JNull => "NoneType"
  | JBool _ => "bool"
  | JNum _ => "int"
  | JStr _ => "str"
  | JList _ => "list"
  | JObj _ => "dict"
  end.

(** [isinstance(v, list)] *)
Definition is_list (v : json) : bool :=
  match v with JList _ => true | _ => false end.

(** Key lookup in a dict kept as an association list. *)
Fixpoint lookup (k : string) (d : list (string * json)) : option json :=
  match d with
  | [] => None
  | (k', v) :: d' => if String.eqb k k' then Some v else lookup k d'
  end.

(** ** Exceptions *)

Inductive exn : Type :=
| AttributeError (obj attr : string)
| TypeError (msg : string)
| IndexError (msg : string)
| ValidationError (model : string) (fields : list string)
| Exception (msg : string).

Inductive result (A : Type) : Type :=
| Ok (a : A)
| Raise (e : exn).
Arguments Ok {A} a.
Arguments Raise {A} e.

(** ** Strings *)

(** [sep in s] for a one-character [sep]. *)
Fixpoint contains_char (c : ascii) (s : string) : bool :=
  match s with
  | EmptyString => false
  | String c' s' => if Ascii.eqb c' c then true else contains_char c s'
  end.

(** [s.split(sep)] for a one-character [sep]: one more segment than there
    are separators, so never the empty list. *)
Fixpoint split (c : ascii) (s : string) : list string :=
  match s with
  | EmptyString => [EmptyString]
  | String c' s' =>
      if Ascii.eqb c' c then EmptyString :: split c s'
      else match split c s' with
           | [] => [String c' EmptyString]
           | w :: ws => String c' w :: ws
           end
  end.

(** [needle in hay] on two strings. *)
Fixpoint substring_in (needle hay : string) : bool :=
  if String.prefix needle hay then true
  else match hay with
       | EmptyString => false
       | String _ hay' => substring_in needle hay'
       end.

Definition space : ascii := " "%char.

(** [l[i]] *)
Definition py_index (l : list string) (i : nat) : result string :=
  match nth_error l i with
  | Some x => Ok x
  | None => Raise (IndexError "list index out of range")
  end.

(** [auth_header.split(" ")[1] if " " in auth_header else auth_header] *)
Definition extract_token (auth_header : string) : result string :=
  if contains_char space auth_header
  then py_index (split space auth_header) 1
  else Ok auth_header.

(** ** Containers *)

(** [key in data] *)
Definition py_contains (key : string) (data : json) : result bool :=
  match data with
  | JObj d => Ok (match lookup key d with Some _ => true | None => false end)
  | JList l =>
      Ok (existsb (fun x => match x with
                            | JStr s => String.eqb s key
                            | _ => false
                            end) l)
  | JStr s => Ok (substring_in key s)
  | _ => Raise (TypeError ("argument of type '" ++ type_name data
                           ++ "' is not iterable"))
  end.

(** [data.get(key, default)] *)
Definition py_get (data : json) (key : string) (default : json) : result json :=
  match data with
  | JObj d => Ok (match lookup key d with Some v => v | None => default end)
  | _ => Raise (AttributeError (type_name data) "get")
  end.

(** [len(v)] where [v] is already known to be a list. *)
Definition py_len (v : json) : nat :=
  match v with JList l => length l | _ => 0 end.

(** ** Result schemas *)

Module ExampleSentence.
Record t : Type := { sentence : string; translation : string }.
End ExampleSentence.

(** crews/translation_crew/schemas.py *)
Module TranslationOutput.
Record t : Type :=
  { word : string;
    source_language : string;
    target_language : string;
    primary_translation : string;
    alternative_translations : list string;
    examples : list ExampleSentence.t;
    notes : string }.
End TranslationOutput.

(** Modelled from the spec: crews/random_phrase_crew/schemas.py is not part
    of the sources at hand; the spec gives the phrase result as
    [phrase: string] and [words: sequence of string], the two fields the
    fallback of [generate_random_phrase] fills in. *)
Module PhraseOutput.
Record t : Type := { phrase : string; words : list string }.
End PhraseOutput.

(** What a field annotated [str] accepts. *)
Definition as_str (v : json) : option string :=
  match v with JStr s => Some s | _ => None end.

(** What a field annotated [list[str]] accepts. *)
Fixpoint as_str_items (l : list json) : option (list string) :=
  match l with
  | [] => Some []
  | x :: l' =>
      match as_str x, as_str_items l' with
      | Some s, Some ss => Some (s :: ss)
      | _, _ => None
      end
  end.

Definition as_str_list (v : json) : option (list string) :=
  match v with JList l => as_str_items l | _ => None end.

(** Name of a field when its value was refused. *)
Definition refused {A : Type} (name : string) (o : option A) : list string :=
  match o with Some _ => [] | None => [name] end.

(** [PhraseOutput(phrase=.., words=..)] *)
Definition PhraseOutput_init (phrase words : json) : result PhraseOutput.t :=
  match as_str phrase, as_str_list words with
  | Some p, Some ws => Ok {| PhraseOutput.phrase := p; PhraseOutput.words := ws |}
  | op, ows =>
      Raise (ValidationError "PhraseOutput"
               (refused "phrase" op ++ refused "words" ows))
  end.

(** [TranslationOutput(word=.., source_language=.., target_language=..,
    primary_translation=.., alternative_translations=.., examples=..,
    notes=..)]; the last three are literals at the only call site. *)
Definition TranslationOutput_init (word source_language target_language
    primary_translation : json) (alternative_translations : list string)
    (examples : list ExampleSentence.t) (notes : string)
  : result TranslationOutput.t :=
  match as_str word, as_str source_language, as_str target_language,
        as_str primary_translation with
  | Some w, Some sl, Some tl, Some pt =>
      Ok {| TranslationOutput.word := w;
            TranslationOutput.source_language := sl;
            TranslationOutput.target_language := tl;
            TranslationOutput.primary_translation := pt;
            TranslationOutput.alternative_translations := alternative_translations;
            TranslationOutput.examples := examples;
            TranslationOutput.notes := notes |}
  | ow, osl, otl, opt =>
      Raise (ValidationError "TranslationOutput"
               (refused "word" ow ++ refused "source_language" osl
                ++ refused "target_language" otl
                ++ refused "primary_translation" opt))
  end.

(** An object a pipeline result can carry in its [pydantic] attribute, and
    so what the two gateway functions can return. *)
Inductive pyobj : Type :=
| PyNone
| PyPhrase (p : PhraseOutput.t)
| PyTranslation (t : TranslationOutput.t).

Definition dump_example (e : ExampleSentence.t) : json :=
  JObj [("sentence", JStr (ExampleSentence.sentence e));
        ("translation", JStr (ExampleSentence.translation e))].

(** [obj.model_dump()] *)
Definition model_dump (o : pyobj) : result json :=
  match o with
  | PyNone => Raise (AttributeError "NoneType" "model_dump")
  | PyPhrase p =>
      Ok (JObj [("phrase", JStr (PhraseOutput.phrase p));
                ("words", JList (map JStr (PhraseOutput.words p)))])
  | PyTranslation t =>
      Ok (JObj [("word", JStr (TranslationOutput.word t));
                ("source_language", JStr (TranslationOutput.source_language t));
                ("target_language", JStr (TranslationOutput.target_language t));
                ("primary_translation",
                  JStr (TranslationOutput.primary_translation t));
                ("alternative_translations",
                  JList (map JStr (TranslationOutput.alternative_translations t)));
                ("examples",
                  JList (map dump_example (TranslationOutput.examples t)));
                ("notes", JStr (TranslationOutput.notes t))])
  end.

(** The value [kickoff_async] hands back: [pydantic] is [None] when the
    object has no such attribute ([hasattr] is false); [raw] is [str(result)]. *)
Record CrewOutput : Type :=
  { pydantic : option pyobj;
    raw : string }.

(** ** Requests, responses, collaborators *)

Module User.
Record t : Type := { id : string }.
End User.

(** The Flask request as the module reads it: the Authorization header, the
    outcome of [request.get_json()], and the [user] attribute that the
    authentication wrapper sets. *)
Record Request : Type :=
  { headers_Authorization : option string;
    get_json : result json;
    user : option User.t }.

Definition set_user (request : Request) (u : User.t) : Request :=
  {| headers_Authorization := headers_Authorization request;
     get_json := get_json request;
     user := Some u |}.

(** [(jsonify(body), code)] *)
Definition Response : Type := (json * Z)%type.

Definition status (r : Response) : Z := snd r.

Definition error_body (msg : string) : json := JObj [("error", JStr msg)].

Definition inputs_t : Type := list (string * json).

(** One entry per call that leaves the process. *)
Inductive event : Type :=
| AuthGetUser (token : string)
| ProfilesSelect (columns user_id user_token : string)
| RandomPhraseKickoff (inputs : inputs_t)
| TranslationKickoff (inputs : inputs_t).

(** The collaborators.  [auth_get_user] is
    [supabase.auth.get_user(token).user]; [profiles_select] builds the
    per-user client and runs the select on [profiles], giving
    [response.data]; the two [kickoff] fields run the agent pipelines;
    [as_text] is [jsonify(v).get_data(as_text=True)];
    [validation_text] is pydantic's rendering of a validation error. *)
Record Env : Type :=
  { auth_get_user : string -> result User.t;
    profiles_select : string -> string -> string -> result (list json);
    random_phrase_kickoff : inputs_t -> result CrewOutput;
    translation_kickoff : inputs_t -> result CrewOutput;
    as_text : json -> string;
    validation_text : string -> list string -> string }.

(** [str(e)] *)
Definition str_exn (env : Env) (e : exn) : string :=
  match e with
  | AttributeError obj attr =>
      "'" ++ obj ++ "' object has no attribute '" ++ attr ++ "'"
  | TypeError msg => msg
  | IndexError msg => msg
  | ValidationError model fields => validation_text env model fields
  | Exception msg => msg
  end.

(** ** Runs: the external calls made, then the outcome *)

Definition M (A : Type) : Type := (list event * result A)%type.

Definition ret {A : Type} (a : A) : M A := ([], Ok a).
Definition raise {A : Type} (e : exn) : M A := ([], Raise e).
Definition lift {A : Type} (r : result A) : M A := ([], r).
Definition call {A : Type} (ev : event) (r : result A) : M A := ([ev], r).

Definition bind {A B : Type} (m : M A) (f : A -> M B) : M B :=
  match snd m with
  | Ok a => (fst m ++ fst (f a), snd (f a))
  | Raise e => (fst m, Raise e)
  end.

(** [try: m  except Exception as e: h e] *)
Definition try_except {A : Type} (m : M A) (h : exn -> M A) : M A :=
  match snd m with
  | Ok a => m
  | Raise e => (fst m ++ fst (h e), snd (h e))
  end.

Notation "x <- m ;; k" := (bind m (fun x => k))
  (at level 61, m at next level, right associativity).

Definition trace {A : Type} (m : M A) : list event := fst m.
Definition outcome {A : Type} (m : M A) : result A := snd m.

(** ** ai/run.py *)

Section Handlers.

Variable env : Env.

(** The authentication wrapper.  [f] is the wrapped view; it runs on the
    request with [user] set. *)
Definition require_auth (f : Request -> M Response) (request : Request)
  : M Response :=
  match headers_Authorization request with
  | None => ret (error_body "Authorization header is required", 401%Z)
  | Some auth_header =>
      if negb (truthy (JStr auth_header))
      then ret (error_body "Authorization header is required", 401%Z)
      else
        match extract_token auth_header with
        | Raise (IndexError _) =>
            ret (error_body "Invalid authorization header format", 401%Z)
        | Raise e => raise e
        | Ok token =>
            verdict <-
              try_except
                (u <- call (AuthGetUser token) (auth_get_user env token);;
                 ret (inl (set_user request u)))
                (fun e =>
                   ret (inr (error_body ("Authentication failed: "
                                         ++ str_exn env e), 401%Z)));;
            match verdict with
            | inl request' => f request'
            | inr response => ret response
            end
        end
  end.

Definition get_user_context (user_id user_token : string) : M json :=
  try_except
    (data <- call (ProfilesSelect "context" user_id user_token)
                  (profiles_select env "context" user_id user_token);;
     match data with
     | row :: _ => lift (py_get row "context" (JStr ""))
     | [] => ret JNull
     end)
    (fun _ => ret JNull).

Definition get_user_profile (user_id user_token : string) : M json :=
  try_except
    (data <- call (ProfilesSelect "*" user_id user_token)
                  (profiles_select env "*" user_id user_token);;
     match data with
     | row :: _ => ret row
     | [] => ret JNull
     end)
    (fun _ => ret JNull).

Definition generate_random_phrase (words user_context : json) : M pyobj :=
  let inputs := [("words", JStr (as_text env words));
                 ("user_context", JStr (as_text env user_context))] in
  result <- call (RandomPhraseKickoff inputs)
                 (random_phrase_kickoff env inputs);;
  match pydantic result with
  | Some o => ret o
  | None =>
      p <- lift (PhraseOutput_init (JStr (raw result)) words);;
      ret (PyPhrase p)
  end.

Definition translate_word (word source_language target_language
    user_context : json) : M pyobj :=
  let inputs := [("word", word);
                 ("source_language", source_language);
                 ("target_language", target_language);
                 ("user_context", py_or user_context (JStr ""))] in
  result <- call (TranslationKickoff inputs)
                 (translation_kickoff env inputs);;
  match pydantic result with
  | Some o => ret o
  | None =>
      t <- lift (TranslationOutput_init word source_language target_language
                   (JStr (raw result)) [] [] "");;
      ret (PyTranslation t)
  end.

(** [request.user] *)
Definition request_user (request : Request) : result User.t :=
  match user request with
  | Some u => Ok u
  | None => Raise (AttributeError "Request" "user")
  end.

(** Lines 218-219 and 283-284: the header is read again and the token
    taken from it with the same expression as in the wrapper. *)
Definition header_token (request : Request) : result string :=
  match headers_Authorization request with
  | Some auth_header => extract_token auth_header
  | None => Raise (TypeError "argument of type 'NoneType' is not iterable")
  end.

(** [not data or key not in data] *)
Definition lacks (data : json) (key : string) : result bool :=
  if negb (truthy data) then Ok true
  else match py_contains key data with
       | Ok c => Ok (negb c)
       | Raise e => Raise e
       end.

(** Lines 216-225: what [get_random_phrase] does once [words] has passed
    the two checks. *)
Definition get_random_phrase_serve (request : Request) (words : json)
  : M Response :=
  u <- lift (request_user request);;
  token <- lift (header_token request);;
  user_context <- get_user_context (User.id u) token;;
  result <- generate_random_phrase words (py_or user_context (JStr ""));;
  body <- lift (model_dump result);;
  ret (body, 200%Z).

(** The [try] block of [get_random_phrase]. *)
Definition get_random_phrase_try (request : Request) : M Response :=
  data <- lift (get_json request);;
  missing <- lift (lacks data "words");;
  if missing : bool
  then ret (error_body "Request body must include 'words' array", 400%Z)
  else
    words <- lift (py_get data "words" (JList []));;
    if negb (is_list words) || Nat.eqb (py_len words) 0
    then ret (error_body "'words' must be a non-empty array", 400%Z)
    else get_random_phrase_serve request words.

(** The handler boundary shared by both views. *)
Definition on_error (e : exn) : M Response :=
  ret (error_body ("An error occurred: " ++ str_exn env e), 500%Z).

Definition get_random_phrase_view (request : Request) : M Response :=
  try_except (get_random_phrase_try request) on_error.

Definition get_random_phrase : Request -> M Response :=
  require_auth get_random_phrase_view.

(** Lines 288-295 for one of the two languages: the profile is consulted
    when the request gave nothing, then the default fills what is left. *)
Definition resolve_language (requested user_profile : json)
    (key default : string) : result json :=
  match (if negb (truthy requested) && truthy user_profile
         then py_get user_profile key (JStr default)
         else Ok requested) with
  | Ok v => Ok (py_or v (JStr default))
  | Raise e => Raise e
  end.

(** Lines 281-307: what [translate] does once [word] has passed the two
    checks. *)
Definition translate_serve (request : Request)
    (word source_language target_language : json) : M Response :=
  u <- lift (request_user request);;
  token <- lift (header_token request);;
  user_profile <- get_user_profile (User.id u) token;;
  source_language <-
    lift (resolve_language source_language user_profile
            "native_language" "English");;
  target_language <-
    lift (resolve_language target_language user_profile
            "target_language" "Spanish");;
  user_context <-
    (if truthy user_profile
     then lift (py_get user_profile "context" (JStr ""))
     else ret (JStr ""));;
  result <- translate_word word source_language target_language
              (py_or user_context (JStr ""));;
  body <- lift (model_dump result);;
  ret (body, 200%Z).

(** The [try] block of [translate]. *)
Definition translate_try (request : Request) : M Response :=
  data <- lift (get_json request);;
  missing <- lift (lacks data "word");;
  if missing : bool
  then ret (error_body "Request body must include 'word'", 400%Z)
  else
    word <- lift (py_get data "word" JNull);;
    source_language <- lift (py_get data "source_language" JNull);;
    target_language <- lift (py_get data "target_language" JNull);;
    if negb (truthy word)
    then ret (error_body "'word' cannot be empty", 400%Z)
    else translate_serve request word source_language target_language.

Definition translate_view (request : Request) : M Response :=
  try_except (translate_try request) on_error.

Definition translate : Request -> M Response :=
  require_auth translate_view.

End Handlers.

(** ** Sample collaborators and requests *)

Module Sample.

Definition u1 : User.t := {| User.id := "u1" |}.

(** An identity service that knows one token, a profile table answering
    [rows], and pipelines answering [pipeline]. *)
Definition env (rows : result (list json)) (pipeline : result CrewOutput)
  : Env :=
  {| auth_get_user := fun token =>
       if String.eqb token "abc123" then Ok u1
       else Raise (Exception "invalid JWT");
     profiles_select := fun _ _ _ => rows;
     random_phrase_kickoff := fun _ => pipeline;
     translation_kickoff := fun _ => pipeline;
     as_text := fun _ => "<json>";
     validation_text := fun model _ => ("validation error for " ++ model)%string |}.

Definition request (header : option string) (body : json) : Request :=
  {| headers_Authorization := header;
     get_json := Ok body;
     user := None |}.

Definition hola : TranslationOutput.t :=
  {| TranslationOutput.word := "hi";
     TranslationOutput.source_language := "English";
     TranslationOutput.target_language := "Spanish";
     TranslationOutput.primary_translation := "hola";
     TranslationOutput.alternative_translations := [];
     TranslationOutput.examples := [];
     TranslationOutput.notes := "" |}.

Definition structured : CrewOutput :=
  {| pydantic := Some (PyTranslation hola); raw := "hola" |}.

Definition unstructured : CrewOutput :=
  {| pydantic := None; raw := "hola" |}.

Definition profile_row : list (string * json) :=
  [("id", JStr "u1"); ("context", JStr "I am a cook");
   ("native_language", JStr "French");
   ("target_language", JStr "German")].

Definition profile : json := JObj profile_row.

Definition bearer : string := "Bearer abc123".

End Sample.

(** ** Reference definitions

    Notions the properties below are stated with; none of them is used by
    the handlers. *)

(** The part of [s] before the first [c] (all of [s] when there is none). *)
Fixpoint before (c : ascii) (s : string) : string :=
  match s with
  | EmptyString => EmptyString
  | String c' s' => if Ascii.eqb c' c then EmptyString else String c' (before c s')
  end.

(** The substring of [s] after the first [c] (empty when there is none). *)
Fixpoint after (c : ascii) (s : string) : string :=
  match s with
  | EmptyString => EmptyString
  | String c' s' => if Ascii.eqb c' c then s' else after c s'
  end.

(** The token as a total function of the header. *)
Definition token_of (h : string) : string :=
  if contains_char space h then before space (after space h) else h.

(** The request is let through by the wrapper: the header is there, is not
    empty, and the identity service answers [u] for its token. *)
Definition authenticated (env : Env) (request : Request) (h : string)
    (u : User.t) : Prop :=
  headers_Authorization request = Some h
  /\ truthy (JStr h) = true
  /\ auth_get_user env (token_of h) = Ok u.

(** Whatever [m] returns satisfies [P]; nothing is said when it raises. *)
Definition returns {A : Type} (P : A -> Prop) (m : M A) : Prop :=
  match snd m with
  | Ok a => P a
  | Raise _ => True
  end.

(** [data.get(key)] on a dict. *)
Definition field (d : list (string * json)) (key : string) : json :=
  match lookup key d with Some v => v | None => JNull end.

(** What [get_user_profile] hands back for an answer of the profile table:
    the first row, else [None]. *)
Definition fetched_profile (answer : result (list json)) : json :=
  match answer with
  | Ok (row :: _) => row
  | _ => JNull
  end.

(** What [get_user_context] hands back for an answer of the profile table. *)
Definition fetched_context (answer : result (list json)) : json :=
  match answer with
  | Ok (row :: _) =>
      match py_get row "context" (JStr "") with
      | Ok v => v
      | Raise _ => JNull
      end
  | _ => JNull
  end.

(** A profile that is absent or a row of the table. *)
Definition profile_json (profile : option (list (string * json))) : json :=
  match profile with Some p => JObj p | None => JNull end.

(** The precedence rule in the spec's words: the request's value when it is
    not empty, else the profile's value when there is a profile and the
    value is not empty, else the default. *)
Definition precedence (requested : json)
    (profile : option (list (string * json))) (key default : string) : json :=
  if truthy requested then requested
  else match profile with
       | Some p =>
           match lookup key p with
           | Some v => if truthy v then v else JStr default
           | None => JStr default
           end
       | None => JStr default
       end.

(** The phrase body breaks the shape rule: [words] is missing, is not a
    list, or is the empty list. *)
Definition words_rejected (d : list (string * json)) : bool :=
  match lookup "words" d with
  | Some (JList (_ :: _)) => false
  | _ => true
  end.

(** The translate body breaks the shape rule: [word] is missing or empty. *)
Definition word_rejected (d : list (string * json)) : bool :=
  match lookup "word" d with
  | Some v => negb (truthy v)
  | None => true
  end.

(** The message that goes with each refusal. *)
Definition words_error (d : list (string * json)) : string :=
  match lookup "words" d with
  | None => "Request body must include 'words' array"
  | Some _ => "'words' must be a non-empty array"
  end.

Definition word_error (d : list (string * json)) : string :=
  match lookup "word" d with
  | None => "Request body must include 'word'"
  | Some _ => "'word' cannot be empty"
  end.

(** The answer of the wrapper's [IndexError] branch. *)
Definition invalid_format : Response :=
  (error_body "Invalid authorization header format", 401%Z).

(** The status codes a view can answer with. *)
Definition view_status (r : Response) : Prop :=
  status r = 200%Z \/ status r = 400%Z \/ status r = 500%Z.

(** Lines 225-232 and 307-314: the gateway's result is serialised with
    status 200, and whatever is raised on the way becomes the 500 answer. *)
Definition respond (env : Env) (generated : M pyobj) : M Response :=
  try_except
    (result <- generated;;
     body <- lift (model_dump result);;
     ret (body, 200%Z))
    (on_error env).

(** The inputs the two gateway functions hand to their pipeline. *)
Definition phrase_inputs (env : Env) (words user_context : json) : inputs_t :=
  [("words", JStr (as_text env words));
   ("user_context", JStr (as_text env user_context))].

Definition translation_inputs (word source_language target_language
    user_context : json) : inputs_t :=
  [("word", word);
   ("source_language", source_language);
   ("target_language", target_language);
   ("user_context", py_or user_context (JStr ""))].

(** The same collaborators with a profile table that answers no row. *)
Definition without_profile (env : Env) : Env :=
  {| auth_get_user := auth_get_user env;
     profiles_select := fun _ _ _ => Ok [];
     random_phrase_kickoff := random_phrase_kickoff env;
     translation_kickoff := translation_kickoff env;
     as_text := as_text env;
     validation_text := validation_text env |}.

(** The 500 answer for an exception. *)
Definition server_error (env : Env) (e : exn) : Response :=
  (error_body ("An error occurred: " ++ str_exn env e), 500%Z).

(** ** Shapes of a run

    What a view can have done and answered once the wrapper has let the
    request through for user [user_id] with credential [token]; [kick] is
    the pipeline call of the endpoint and [columns] its profile query. *)
Inductive view_shape (env : Env) (columns : string)
    (kick : inputs_t -> event) (user_id token : string)
  : M Response -> Prop :=
| RefusedBody (msg : string) :
    view_shape env columns kick user_id token
      ([], Ok (error_body msg, 400%Z))
| FailedEarly (e : exn) :
    view_shape env columns kick user_id token ([], Ok (server_error env e))
| FailedAfterProfile (e : exn) :
    view_shape env columns kick user_id token
      ([ProfilesSelect columns user_id token], Ok (server_error env e))
| FailedAfterPipeline (inputs : inputs_t) (e : exn) :
    view_shape env columns kick user_id token
      ([ProfilesSelect columns user_id token; kick inputs],
       Ok (server_error env e))
| Served (inputs : inputs_t) (o : pyobj) (body : json) :
    model_dump o = Ok body ->
    view_shape env columns kick user_id token
      ([ProfilesSelect columns user_id token; kick inputs], Ok (body, 200%Z)).

(** What a wrapped endpoint can have done and answered. *)
Inductive run_shape (env : Env) (columns : string)
    (kick : inputs_t -> event) : M Response -> Prop :=
| NoCredential :
    run_shape env columns kick
      ([], Ok (error_body "Authorization header is required", 401%Z))
| Rejected (token : string) (e : exn) :
    auth_get_user env token = Raise e ->
    run_shape env columns kick
      ([AuthGetUser token],
       Ok (error_body ("Authentication failed: " ++ str_exn env e), 401%Z))
| Accepted (token : string) (u : User.t) (t : list event)
    (r : result Response) :
    auth_get_user env token = Ok u ->
    view_shape env columns kick (User.id u) token (t, r) ->
    run_shape env columns kick (AuthGetUser token :: t, r).

(** The three external calls of a served request, in order. *)
Definition full_trace (columns : string) (kick : inputs_t -> event)
    (token user_id : string) (inputs : inputs_t) : list event :=
  [AuthGetUser token; ProfilesSelect columns user_id token; kick inputs].

(** ** Building the result schemas from keyword arguments

    crews/translation_crew/schemas.py, lines 4-27: what the constructors
    of [ExampleSentence] and [TranslationOutput] accept when they are given
    the entries of a dict [d] as keyword arguments.  The four
    string fields of a translation are required; the two lists default to
    the empty list and [notes] to the empty string; keys that name no field
    are ignored. *)

Definition ExampleSentence_validate (v : json) : option ExampleSentence.t :=
  match v with
  | JObj d =>
      match lookup "sentence" d, lookup "translation" d with
      | Some (JStr s), Some (JStr t) =>
          Some {| ExampleSentence.sentence := s;
                  ExampleSentence.translation := t |}
      | _, _ => None
      end
  | _ => None
  end.

Fixpoint as_example_items (l : list json) : option (list ExampleSentence.t) :=
  match l with
  | [] => Some []
  | x :: l' =>
      match ExampleSentence_validate x, as_example_items l' with
      | Some e, Some es => Some (e :: es)
      | _, _ => None
      end
  end.

Definition as_example_list (v : json) : option (list ExampleSentence.t) :=
  match v with JList l => as_example_items l | _ => None end.

(** A field with no default: it must be given and be accepted. *)
Definition required_field {A : Type} (parse : json -> option A)
    (given : option json) : option A :=
  match given with Some v => parse v | None => None end.

(** A field with a default: used when the field is not given. *)
Definition defaulted_field {A : Type} (parse : json -> option A)
    (default : A) (given : option json) : option A :=
  match given with Some v => parse v | None => Some default end.

Definition TranslationOutput_validate (d : list (string * json))
  : result TranslationOutput.t :=
  let word := required_field as_str (lookup "word" d) in
  let source_language := required_field as_str (lookup "source_language" d) in
  let target_language := required_field as_str (lookup "target_language" d) in
  let primary_translation :=
    required_field as_str (lookup "primary_translation" d) in
  let alternative_translations :=
    defaulted_field as_str_list [] (lookup "alternative_translations" d) in
  let examples := defaulted_field as_example_list [] (lookup "examples" d) in
  let notes := defaulted_field as_str "" (lookup "notes" d) in
  match word, source_language, target_language, primary_translation,
        alternative_translations, examples, notes with
  | Some w, Some sl, Some tl, Some pt, Some alts, Some exs, Some n =>
      Ok {| TranslationOutput.word := w;
            TranslationOutput.source_language := sl;
            TranslationOutput.target_language := tl;
            TranslationOutput.primary_translation := pt;
            TranslationOutput.alternative_translations := alts;
            TranslationOutput.examples := exs;
            TranslationOutput.notes := n |}
  | _, _, _, _, _, _, _ =>
      Raise (ValidationError "TranslationOutput"
               (refused "word" word
                ++ refused "source_language" source_language
                ++ refused "target_language" target_language
                ++ refused "primary_translation" primary_translation
                ++ refused "alternative_translations" alternative_translations
                ++ refused "examples" examples
                ++ refused "notes" notes))
  end.

(** ** The stored context *)

(** The context the phrase pipeline is given for an answer of the profile
    table: that of the first row when there is one and it is not empty. *)
Definition stored_context (answer : result (list json)) : json :=
  match answer with
  | Ok (JObj d :: _) =>
      match lookup "context" d with
      | Some v => if truthy v then v else JStr ""
      | None => JStr ""
      end
  | _ => JStr ""
  end.

(** The names of the fields of [TranslationOutput] that have no default. *)
Definition required_names : list string :=
  ["word"; "source_language"; "target_language"; "primary_translation"].

(** The JSON object a translation result is serialised to. *)
Definition translation_json (word source_language target_language
    primary_translation : string) (alternative_translations : list string)
    (examples : list ExampleSentence.t) (notes : string) : json :=
  JObj [("word", JStr word);
        ("source_language", JStr source_language);
        ("target_language", JStr target_language);
        ("primary_translation", JStr primary_translation);
        ("alternative_translations",
          JList (map JStr alternative_translations));
        ("examples", JList (map dump_example examples));
        ("notes", JStr notes)].

(** * Properties *)

(** ** Splitting a header *)

Lemma split_not_nil (c : ascii) (s : string) : split c s <> [].
Proof.
  induction s as [|c' s IH]; simpl.
  - discriminate.
  - destruct (Ascii.eqb c' c); [discriminate|].
    destruct (split c s); discriminate.
Qed.

(** The first separator cuts [s] into [before] and the split of [after]. *)
Lemma split_at_first (c : ascii) (s : string) :
  contains_char c s = true ->
  split c s = before c s :: split c (after c s).
Proof.
  induction s as [|c' s IH]; simpl; intros H.
  - discriminate.
  - destruct (Ascii.eqb c' c); [reflexivity|].
    rewrite (IH H). reflexivity.
Qed.

Lemma split_without (c : ascii) (s : string) :
  contains_char c s = false -> split c s = [s].
Proof.
  induction s as [|c' s IH]; simpl; intros H.
  - reflexivity.
  - destruct (Ascii.eqb c' c); [discriminate|].
    rewrite (IH H). reflexivity.
Qed.

Lemma split_head (c : ascii) (s : string) :
  exists rest, split c s = before c s :: rest.
Proof.
  destruct (contains_char c s) eqn:H.
  - eexists. apply split_at_first, H.
  - exists []. rewrite (split_without _ _ H). f_equal.
    induction s as [|c' s IH]; simpl in *; [reflexivity|].
    destruct (Ascii.eqb c' c); [discriminate|]. now rewrite <- IH.
Qed.

Lemma before_without (c : ascii) (s : string) :
  contains_char c s = false -> before c s = s.
Proof.
  induction s as [|c' s IH]; simpl; intros H; [reflexivity|].
  destruct (Ascii.eqb c' c); [discriminate|]. now rewrite IH.
Qed.

Lemma split_two_segments (c : ascii) (s : string) :
  contains_char c s = true -> 2 <= length (split c s).
Proof.
  intros H. rewrite (split_at_first _ _ H). simpl.
  destruct (split c (after c s)) eqn:E.
  - now apply split_not_nil in E.
  - simpl. lia.
Qed.

(** The token is the second segment: what lies between the first separator
    and the next one. *)
Lemma extract_token_spaced (h : string) :
  contains_char space h = true ->
  extract_token h = Ok (before space (after space h)).
Proof.
  intros H. unfold extract_token. rewrite H.
  rewrite (split_at_first _ _ H).
  destruct (split_head space (after space h)) as [rest ->].
  reflexivity.
Qed.

Lemma extract_token_plain (h : string) :
  contains_char space h = false -> extract_token h = Ok h.
Proof. intros H. unfold extract_token. now rewrite H. Qed.

Lemma extract_token_total (h : string) : extract_token h = Ok (token_of h).
Proof.
  unfold token_of. destruct (contains_char space h) eqn:H.
  - now apply extract_token_spaced.
  - now apply extract_token_plain.
Qed.

(** ** Runs *)

Lemma bind_ret {A B : Type} (a : A) (f : A -> M B) : bind (ret a) f = f a.
Proof. unfold bind, ret; simpl. now destruct (f a). Qed.

Lemma bind_lift_ok {A B : Type} (a : A) (f : A -> M B) :
  bind (lift (Ok a)) f = f a.
Proof. apply bind_ret. Qed.

Lemma bind_lift_raise {A B : Type} (e : exn) (f : A -> M B) :
  bind (lift (Raise e)) f = raise e.
Proof. reflexivity. Qed.

Lemma bind_call_ok {A B : Type} (ev : event) (a : A) (f : A -> M B) :
  bind (call ev (Ok a)) f = (ev :: fst (f a), snd (f a)).
Proof. reflexivity. Qed.

Lemma bind_call_raise {A B : Type} (ev : event) (e : exn) (f : A -> M B) :
  bind (call ev (Raise e)) f = ([ev], Raise e).
Proof. reflexivity. Qed.

Lemma returns_ret {A : Type} (P : A -> Prop) (a : A) : P a -> returns P (ret a).
Proof. exact (fun H => H). Qed.

Lemma returns_all {A : Type} (P : A -> Prop) (m : M A) :
  (forall a, P a) -> returns P m.
Proof. intros H. unfold returns. destruct (snd m); auto. Qed.

Lemma returns_bind {A B : Type} (Q : B -> Prop) (m : M A) (f : A -> M B) :
  returns (fun a => returns Q (f a)) m -> returns Q (bind m f).
Proof. unfold returns, bind. destruct (snd m); simpl; auto. Qed.

Lemma returns_try_except {A : Type} (Q : A -> Prop) (m : M A)
    (h : exn -> M A) :
  returns Q m -> (forall e, returns Q (h e)) -> returns Q (try_except m h).
Proof.
  unfold returns, try_except. intros Hm Hh.
  destruct (snd m) eqn:E; simpl.
  - now rewrite E.
  - apply Hh.
Qed.

(** A view ends at its handler boundary: it never raises. *)
Lemma boundary_returns (env : Env) (m : M Response) :
  exists r, snd (try_except m (on_error env)) = Ok r.
Proof.
  unfold try_except. destruct (snd m) eqn:E; simpl; eauto.
Qed.

Lemma boundary_ok (env : Env) (m : M Response) (r : Response) :
  snd m = Ok r -> try_except m (on_error env) = m.
Proof. intros H. unfold try_except. now rewrite H. Qed.

Lemma boundary_raise (env : Env) (m : M Response) (e : exn) :
  snd m = Raise e ->
  try_except m (on_error env)
  = (fst m, Ok (error_body ("An error occurred: " ++ str_exn env e), 500%Z)).
Proof.
  intros H. unfold try_except. rewrite H. simpl. now rewrite app_nil_r.
Qed.

(** ** The authentication wrapper *)

Section Wrapper.

Variable env : Env.
Variable f : Request -> M Response.
Variable request : Request.

Lemma require_auth_missing :
  headers_Authorization request = None ->
  require_auth env f request
  = ([], Ok (error_body "Authorization header is required", 401%Z)).
Proof. intros H. unfold require_auth. now rewrite H. Qed.

Lemma require_auth_empty (h : string) :
  headers_Authorization request = Some h ->
  truthy (JStr h) = false ->
  require_auth env f request
  = ([], Ok (error_body "Authorization header is required", 401%Z)).
Proof. intros H E. unfold require_auth. now rewrite H, E. Qed.

Lemma require_auth_rejected (h : string) (e : exn) :
  headers_Authorization request = Some h ->
  truthy (JStr h) = true ->
  auth_get_user env (token_of h) = Raise e ->
  require_auth env f request
  = ([AuthGetUser (token_of h)],
     Ok (error_body ("Authentication failed: " ++ str_exn env e), 401%Z)).
Proof.
  intros H E R. unfold require_auth.
  rewrite H, E, extract_token_total; simpl.
  unfold bind, try_except, call; simpl. now rewrite R.
Qed.

Lemma require_auth_accepted (h : string) (u : User.t) :
  authenticated env request h u ->
  require_auth env f request
  = (AuthGetUser (token_of h) :: fst (f (set_user request u)),
     snd (f (set_user request u))).
Proof.
  intros (H & E & R). unfold require_auth.
  rewrite H, E, extract_token_total; simpl.
  unfold bind, try_except, call; simpl. now rewrite R.
Qed.

End Wrapper.

(** ** Inside the views *)

Lemma trace_bind {A B : Type} (m : M A) (f : A -> M B) :
  fst (bind m f)
  = fst m ++ match snd m with Ok a => fst (f a) | Raise _ => [] end.
Proof.
  unfold bind. destruct (snd m); simpl; [reflexivity|]. now rewrite app_nil_r.
Qed.

Lemma trace_boundary (env : Env) (m : M Response) :
  fst (try_except m (on_error env)) = fst m.
Proof.
  unfold try_except. destruct (snd m); simpl; [reflexivity|].
  now rewrite app_nil_r.
Qed.

Lemma request_user_set (request : Request) (u : User.t) :
  request_user (set_user request u) = Ok u.
Proof. reflexivity. Qed.

Lemma header_token_set (request : Request) (h : string) (u : User.t) :
  headers_Authorization request = Some h ->
  header_token (set_user request u) = Ok (token_of h).
Proof.
  intros H. unfold header_token; simpl. rewrite H. apply extract_token_total.
Qed.

Lemma get_user_profile_run (env : Env) (user_id user_token : string) :
  get_user_profile env user_id user_token
  = call (ProfilesSelect "*" user_id user_token)
         (Ok (fetched_profile (profiles_select env "*" user_id user_token))).
Proof.
  unfold get_user_profile, try_except, bind, call, fetched_profile; simpl.
  destruct (profiles_select env "*" user_id user_token) as [[|row rows]|e];
    reflexivity.
Qed.

Lemma get_user_context_run (env : Env) (user_id user_token : string) :
  get_user_context env user_id user_token
  = call (ProfilesSelect "context" user_id user_token)
         (Ok (fetched_context
                (profiles_select env "context" user_id user_token))).
Proof.
  unfold get_user_context, try_except, bind, call, fetched_context; simpl.
  destruct (profiles_select env "context" user_id user_token)
    as [[|row rows]|e]; simpl; try reflexivity.
  destruct (py_get row "context" (JStr "")); reflexivity.
Qed.

Lemma lookup_some_truthy (k : string) (d : list (string * json)) (v : json) :
  lookup k d = Some v -> truthy (JObj d) = true.
Proof. destruct d; [discriminate | reflexivity]. Qed.

Lemma lacks_present (k : string) (d : list (string * json)) (v : json) :
  lookup k d = Some v -> lacks (JObj d) k = Ok false.
Proof.
  intros H. unfold lacks. rewrite (lookup_some_truthy _ _ _ H); simpl.
  now rewrite H.
Qed.

Lemma lacks_absent (k : string) (d : list (string * json)) :
  lookup k d = None -> lacks (JObj d) k = Ok true.
Proof.
  intros H. unfold lacks. destruct (truthy (JObj d)); simpl; [|reflexivity].
  now rewrite H.
Qed.

(** The gateway functions make exactly one external call. *)
Lemma translate_word_trace (env : Env) (w sl tl ctx : json) :
  fst (translate_word env w sl tl ctx)
  = [TranslationKickoff [("word", w); ("source_language", sl);
                         ("target_language", tl);
                         ("user_context", py_or ctx (JStr ""))]].
Proof.
  unfold translate_word. rewrite trace_bind; simpl.
  destruct (translation_kickoff env _) as [r|e]; [|reflexivity].
  destruct (pydantic r); [reflexivity|].
  rewrite trace_bind; simpl.
  destruct (TranslationOutput_init _ _ _ _ _ _ _); reflexivity.
Qed.

Lemma generate_random_phrase_trace (env : Env) (words ctx : json) :
  fst (generate_random_phrase env words ctx)
  = [RandomPhraseKickoff [("words", JStr (as_text env words));
                          ("user_context", JStr (as_text env ctx))]].
Proof.
  unfold generate_random_phrase. rewrite trace_bind; simpl.
  destruct (random_phrase_kickoff env _) as [r|e]; [|reflexivity].
  destruct (pydantic r); [reflexivity|].
  rewrite trace_bind; simpl.
  destruct (PhraseOutput_init _ _); reflexivity.
Qed.

(** Serialising the gateway's result makes no external call. *)
Lemma respond_trace (m : M pyobj) :
  fst (result <- m;; body <- lift (model_dump result);; ret (body, 200%Z))
  = fst m.
Proof.
  rewrite trace_bind. destruct (snd m) as [o|e]; [|apply app_nil_r].
  rewrite trace_bind; simpl. destruct (model_dump o); apply app_nil_r.
Qed.

(** ** Language resolution *)

Lemma resolve_language_precedence (requested : json)
    (profile : option (list (string * json))) (key default : string) :
  resolve_language requested (profile_json profile) key default
  = Ok (precedence requested profile key default).
Proof.
  unfold resolve_language, precedence, py_or.
  destruct (truthy requested) eqn:R; simpl.
  - now rewrite R.
  - destruct profile as [p|]; simpl.
    + destruct p as [|kv p]; simpl.
      * now rewrite R.
      * change (match kv with (k', v) => if String.eqb key k' then Some v
                                         else lookup key p end)
          with (lookup key (kv :: p)).
        destruct (lookup key (kv :: p)) as [v|]; simpl.
        -- destruct (truthy v); reflexivity.
        -- destruct default; reflexivity.
    + now rewrite R.
Qed.

Lemma translate_try_valid (env : Env) (request : Request)
    (d : list (string * json)) (word : json) :
  get_json request = Ok (JObj d) ->
  lookup "word" d = Some word ->
  truthy word = true ->
  translate_try env request
  = translate_serve env request word (field d "source_language")
      (field d "target_language").
Proof.
  intros J W T. unfold translate_try.
  rewrite J, bind_lift_ok, (lacks_present _ _ _ W), bind_lift_ok.
  unfold py_get. rewrite !bind_lift_ok, W, T. reflexivity.
Qed.

Lemma get_random_phrase_try_valid (env : Env) (request : Request)
    (d : list (string * json)) (x : json) (l : list json) :
  get_json request = Ok (JObj d) ->
  lookup "words" d = Some (JList (x :: l)) ->
  get_random_phrase_try env request
  = get_random_phrase_serve env request (JList (x :: l)).
Proof.
  intros J W. unfold get_random_phrase_try.
  rewrite J, bind_lift_ok, (lacks_present _ _ _ W), bind_lift_ok.
  unfold py_get. rewrite bind_lift_ok, W. reflexivity.
Qed.

(** Past the wrapper, [translate_serve] starts with the profile fetch, made
    with the user's identifier and the header's token. *)
Ltac enter_serve H :=
  rewrite request_user_set, (header_token_set _ _ _ H), !bind_lift_ok;
  first [rewrite get_user_profile_run | rewrite get_user_context_run];
  rewrite bind_call_ok.

(** C1.  For a translate request that passes authentication and validation,
    the languages handed to the translation pipeline follow the precedence
    request value, then non-empty profile value, then default ("English" for
    the source, "Spanish" for the target); an empty or missing profile field
    falls through to the default. *)
Theorem translate_language_precedence (env : Env) (request : Request)
    (h : string) (u : User.t) (d : list (string * json)) (word : json)
    (profile : option (list (string * json))) :
  authenticated env request h u ->
  get_json request = Ok (JObj d) ->
  lookup "word" d = Some word ->
  truthy word = true ->
  fetched_profile (profiles_select env "*" (User.id u) (token_of h))
  = profile_json profile ->
  exists user_context,
    trace (translate env request)
    = [AuthGetUser (token_of h);
       ProfilesSelect "*" (User.id u) (token_of h);
       TranslationKickoff
         [("word", word);
          ("source_language",
            precedence (field d "source_language") profile
              "native_language" "English");
          ("target_language",
            precedence (field d "target_language") profile
              "target_language" "Spanish");
          ("user_context", user_context)]].
Proof.
  intros A J W T P. pose proof A as (H & _ & _).
  unfold translate, trace. rewrite (require_auth_accepted _ _ _ _ _ A).
  unfold translate_view. rewrite trace_boundary.
  rewrite (translate_try_valid _ (set_user request u) d word J W T).
  unfold translate_serve. enter_serve H. rewrite P.
  rewrite !resolve_language_precedence, !bind_lift_ok.
  assert (C : exists c,
             (if truthy (profile_json profile)
              then lift (py_get (profile_json profile) "context" (JStr ""))
              else ret (JStr "")) = lift (Ok c)).
  { destruct profile as [[|kv p]|]; eexists; reflexivity. }
  destruct C as [c ->]. rewrite bind_lift_ok, respond_trace.
  rewrite translate_word_trace. simpl. eauto.
Qed.

(** ** Body validation *)

Lemma get_random_phrase_try_rejects (env : Env) (request : Request)
    (d : list (string * json)) :
  get_json request = Ok (JObj d) ->
  words_rejected d = true ->
  get_random_phrase_try env request = ret (error_body (words_error d), 400%Z).
Proof.
  intros J R. unfold get_random_phrase_try, words_rejected, words_error in *.
  rewrite J, bind_lift_ok.
  destruct (lookup "words" d) as [v|] eqn:W.
  - rewrite (lacks_present _ _ _ W), bind_lift_ok.
    unfold py_get. rewrite bind_lift_ok, W.
    destruct v as [| | | |[|x l]|]; try reflexivity. discriminate.
  - now rewrite (lacks_absent _ _ W), bind_lift_ok.
Qed.

Lemma translate_try_rejects (env : Env) (request : Request)
    (d : list (string * json)) :
  get_json request = Ok (JObj d) ->
  word_rejected d = true ->
  translate_try env request = ret (error_body (word_error d), 400%Z).
Proof.
  intros J R. unfold translate_try, word_rejected, word_error in *.
  rewrite J, bind_lift_ok.
  destruct (lookup "word" d) as [v|] eqn:W.
  - rewrite (lacks_present _ _ _ W), bind_lift_ok.
    unfold py_get. rewrite !bind_lift_ok, W, R. reflexivity.
  - now rewrite (lacks_absent _ _ W), bind_lift_ok.
Qed.

Lemma get_random_phrase_rejects (env : Env) (request : Request) (h : string)
    (u : User.t) (d : list (string * json)) :
  authenticated env request h u ->
  get_json request = Ok (JObj d) ->
  words_rejected d = true ->
  get_random_phrase env request
  = ([AuthGetUser (token_of h)], Ok (error_body (words_error d), 400%Z)).
Proof.
  intros A J R. unfold get_random_phrase.
  rewrite (require_auth_accepted _ _ _ _ _ A).
  unfold get_random_phrase_view.
  rewrite (get_random_phrase_try_rejects _ (set_user request u) d J R).
  reflexivity.
Qed.

Lemma translate_rejects (env : Env) (request : Request) (h : string)
    (u : User.t) (d : list (string * json)) :
  authenticated env request h u ->
  get_json request = Ok (JObj d) ->
  word_rejected d = true ->
  translate env request
  = ([AuthGetUser (token_of h)], Ok (error_body (word_error d), 400%Z)).
Proof.
  intros A J R. unfold translate.
  rewrite (require_auth_accepted _ _ _ _ _ A).
  unfold translate_view.
  rewrite (translate_try_rejects _ (set_user request u) d J R).
  reflexivity.
Qed.

(** C3 (as amended).  A request that passes authentication and whose JSON
    object body breaks the shape rule of its endpoint is answered 400, and
    the identity verification is the only external call of the run: no
    profile fetch and no generation call is made. *)
Theorem bad_shape_stops_after_authentication (env : Env) (request : Request)
    (h : string) (u : User.t) (d : list (string * json)) :
  authenticated env request h u ->
  get_json request = Ok (JObj d) ->
  (words_rejected d = true ->
   trace (get_random_phrase env request) = [AuthGetUser (token_of h)]
   /\ exists msg,
       outcome (get_random_phrase env request) = Ok (error_body msg, 400%Z))
  /\ (word_rejected d = true ->
      trace (translate env request) = [AuthGetUser (token_of h)]
      /\ exists msg,
          outcome (translate env request) = Ok (error_body msg, 400%Z)).
Proof.
  intros A J. split; intros R.
  - rewrite (get_random_phrase_rejects _ _ _ _ _ A J R). simpl. eauto.
  - rewrite (translate_rejects _ _ _ _ _ A J R). simpl. eauto.
Qed.

(** C7.  An authenticated translate request whose body lacks [word] is to
    be answered 400.  The bodies 5 and ["word"] have no such field, and a
    body that cannot be parsed has none either; each of these requests is
    answered 500, the checks of the first lines of the view raising instead
    of refusing.  The phrase endpoint does the same on the body [true]. *)
Lemma body_without_word_is_500 :
  translate (Sample.env (Ok []) (Ok Sample.structured))
    (Sample.request (Some Sample.bearer) (JNum 5))
  = ([AuthGetUser "abc123"],
     Ok (error_body
           "An error occurred: argument of type 'int' is not iterable", 500%Z))
  /\ translate (Sample.env (Ok []) (Ok Sample.structured))
       (Sample.request (Some Sample.bearer) (JList [JStr "word"]))
     = ([AuthGetUser "abc123"],
        Ok (error_body
              "An error occurred: 'list' object has no attribute 'get'",
              500%Z))
  /\ translate (Sample.env (Ok []) (Ok Sample.structured))
       {| headers_Authorization := Some Sample.bearer;
          get_json := Raise (Exception "400 Bad Request");
          user := None |}
     = ([AuthGetUser "abc123"],
        Ok (error_body "An error occurred: 400 Bad Request", 500%Z))
  /\ get_random_phrase (Sample.env (Ok []) (Ok Sample.structured))
       (Sample.request (Some Sample.bearer) (JBool true))
     = ([AuthGetUser "abc123"],
        Ok (error_body
              "An error occurred: argument of type 'bool' is not iterable",
              500%Z)).
Proof. repeat split. Qed.

(** X23.  For an authenticated request whose body is a JSON object, the
    phrase endpoint answers 400 when [words] is the empty list or is not a
    list, and the translate endpoint answers 400 when [word] is the empty
    string or is missing from the body; the 400 response is the error
    payload of the check that refused. *)
Theorem invalid_fields_are_400 (env : Env) (request : Request) (h : string)
    (u : User.t) (d : list (string * json)) :
  authenticated env request h u ->
  get_json request = Ok (JObj d) ->
  (forall v, lookup "words" d = Some v -> v = JList [] \/ is_list v = false ->
     outcome (get_random_phrase env request)
     = Ok (error_body "'words' must be a non-empty array", 400%Z))
  /\ (lookup "word" d = Some (JStr "") ->
      outcome (translate env request)
      = Ok (error_body "'word' cannot be empty", 400%Z))
  /\ (lookup "word" d = None ->
      outcome (translate env request)
      = Ok (error_body "Request body must include 'word'", 400%Z)).
Proof.
  intros A J. repeat split.
  - intros v W V.
    assert (R : words_rejected d = true).
    { unfold words_rejected. rewrite W.
      destruct V as [-> | V]; [reflexivity|].
      destruct v; try reflexivity; discriminate. }
    rewrite (get_random_phrase_rejects _ _ _ _ _ A J R).
    unfold words_error. now rewrite W.
  - intros W.
    assert (R : word_rejected d = true) by (unfold word_rejected; now rewrite W).
    rewrite (translate_rejects _ _ _ _ _ A J R).
    unfold word_error. now rewrite W.
  - intros W.
    assert (R : word_rejected d = true) by (unfold word_rejected; now rewrite W).
    rewrite (translate_rejects _ _ _ _ _ A J R).
    unfold word_error. now rewrite W.
Qed.

(** C6.  Without an Authorization header both endpoints answer 401 with an
    error payload and make no external call, so the identity service is not
    consulted; when the identity service rejects the credential they answer
    401 with the rejection's message in the payload, after that one call. *)
Theorem missing_or_rejected_credential_is_401 (env : Env)
    (request : Request) :
  (headers_Authorization request = None ->
   get_random_phrase env request
   = ([], Ok (error_body "Authorization header is required", 401%Z))
   /\ translate env request
      = ([], Ok (error_body "Authorization header is required", 401%Z)))
  /\ (forall h e,
        headers_Authorization request = Some h ->
        truthy (JStr h) = true ->
        auth_get_user env (token_of h) = Raise e ->
        get_random_phrase env request
        = ([AuthGetUser (token_of h)],
           Ok (error_body ("Authentication failed: " ++ str_exn env e), 401%Z))
        /\ translate env request
           = ([AuthGetUser (token_of h)],
              Ok (error_body ("Authentication failed: " ++ str_exn env e),
                  401%Z))).
Proof.
  split.
  - intros H. split; apply require_auth_missing, H.
  - intros h e H T R. split; apply require_auth_rejected; assumption.
Qed.

(** ** Status codes *)

Ltac returns_step :=
  lazymatch goal with
  | |- returns _ (try_except _ _) => apply returns_try_except; [|intro]
  | |- returns _ (bind _ _) =>
      apply returns_bind; apply returns_all; intro; cbv beta
  | |- returns _ (ret _) => apply returns_ret
  | |- returns _ (on_error _ _) => apply returns_ret
  | |- returns _ (if ?b then _ else _) => destruct b
  end.

Lemma get_random_phrase_view_status (env : Env) (request : Request) :
  returns view_status (get_random_phrase_view env request).
Proof.
  unfold get_random_phrase_view, get_random_phrase_try,
    get_random_phrase_serve, view_status.
  repeat returns_step; simpl; auto.
Qed.

Lemma translate_view_status (env : Env) (request : Request) :
  returns view_status (translate_view env request).
Proof.
  unfold translate_view, translate_try, translate_serve, view_status.
  repeat returns_step; simpl; auto.
Qed.

Lemma returns_not {A : Type} (P : A -> Prop) (m : M A) (a : A) :
  returns P m -> ~ P a -> snd m <> Ok a.
Proof.
  unfold returns. intros H N E. rewrite E in H. auto.
Qed.

(** What the wrapper answers is one of its own two 401 messages or what the
    view answers. *)
Lemma require_auth_never_invalid_format (env : Env)
    (f : Request -> M Response) (request : Request) :
  (forall request', returns view_status (f request')) ->
  snd (require_auth env f request) <> Ok invalid_format.
Proof.
  intros F. unfold require_auth, invalid_format.
  destruct (headers_Authorization request) as [h|]; [|discriminate].
  destruct (negb (truthy (JStr h))); [discriminate|].
  rewrite extract_token_total.
  unfold bind, try_except, call; simpl.
  destruct (auth_get_user env (token_of h)) as [u|e]; simpl.
  - apply (returns_not view_status); [apply F|].
    unfold view_status; simpl. intros [H|[H|H]]; discriminate.
  - discriminate.
Qed.

(** C9.  The wrapper's [IndexError] branch cannot be taken: a header that
    contains a space splits into at least two segments, token extraction
    returns for every header, and neither endpoint ever answers the
    'Invalid authorization header format' 401. *)
Theorem invalid_format_branch_unreachable :
  (forall h, contains_char space h = true -> 2 <= length (split space h))
  /\ (forall h, exists token, extract_token h = Ok token)
  /\ (forall env request,
        outcome (get_random_phrase env request) <> Ok invalid_format
        /\ outcome (translate env request) <> Ok invalid_format).
Proof.
  split; [|split].
  - intros h. apply split_two_segments.
  - intros h. eexists. apply extract_token_total.
  - intros env request. split; apply require_auth_never_invalid_format.
    + apply get_random_phrase_view_status.
    + apply translate_view_status.
Qed.

(** ** The credential *)

(** With a second space in the header the token stops there: the code takes
    the second segment of the split, not everything after the first space. *)
Lemma token_stops_at_second_space :
  contains_char space "Bearer abc def" = true
  /\ extract_token "Bearer abc def" = Ok "abc"
  /\ after space "Bearer abc def" = "abc def"
  /\ extract_token "Bearer abc def" <> Ok (after space "Bearer abc def").
Proof. repeat split; try reflexivity. discriminate. Qed.

(** C2 (as amended).  When the header contains a space, the credential is
    the text between the first space and the next one (or the end of the
    header), which is everything after the first space when that holds no
    further space; when the header has no space the whole header is the
    credential.  Extraction returns in every case, and the same credential
    is presented to the identity service and to the profile store. *)
Theorem token_extraction (h : string) :
  extract_token h = Ok (token_of h)
  /\ (contains_char space h = true ->
      token_of h = before space (after space h)
      /\ (contains_char space (after space h) = false ->
          token_of h = after space h))
  /\ (contains_char space h = false -> token_of h = h)
  /\ (forall env request u d,
        authenticated env request h u ->
        get_json request = Ok (JObj d) ->
        (forall x l, lookup "words" d = Some (JList (x :: l)) ->
           exists rest,
             trace (get_random_phrase env request)
             = AuthGetUser (token_of h)
               :: ProfilesSelect "context" (User.id u) (token_of h) :: rest)
        /\ (forall word, lookup "word" d = Some word -> truthy word = true ->
              exists rest,
                trace (translate env request)
                = AuthGetUser (token_of h)
                  :: ProfilesSelect "*" (User.id u) (token_of h) :: rest)).
Proof.
  split; [apply extract_token_total|].
  split; [|split].
  - intros S. unfold token_of. rewrite S. split; [reflexivity|].
    intros S'. now apply before_without.
  - intros S. unfold token_of. now rewrite S.
  - intros env request u d A J. pose proof A as (H & _ & _). split.
    + intros x l W. unfold get_random_phrase, trace.
      rewrite (require_auth_accepted _ _ _ _ _ A).
      unfold get_random_phrase_view. rewrite trace_boundary.
      rewrite (get_random_phrase_try_valid _ (set_user request u) d x l J W).
      unfold get_random_phrase_serve. enter_serve H. simpl. eauto.
    + intros word W T. unfold translate, trace.
      rewrite (require_auth_accepted _ _ _ _ _ A).
      unfold translate_view. rewrite trace_boundary.
      rewrite (translate_try_valid _ (set_user request u) d word J W T).
      unfold translate_serve. enter_serve H. simpl. eauto.
Qed.

(** ** The generation gateway *)

Lemma as_str_items_strings (ws : list string) :
  as_str_items (map JStr ws) = Some ws.
Proof.
  induction ws as [|w ws IH]; simpl; [reflexivity|]. now rewrite IH.
Qed.

(** The fallback is a schema object, and the schema refuses what is not a
    string: with a number as word, or a number among the words, the gateway
    raises on a result without the structured attribute, and the translate
    endpoint, which lets the number through, answers 500. *)
Lemma fallback_raises_on_non_strings :
  pydantic Sample.unstructured = None
  /\ outcome (translate_word (Sample.env (Ok []) (Ok Sample.unstructured))
                (JNum 5) (JStr "English") (JStr "Spanish") (JStr ""))
     = Raise (ValidationError "TranslationOutput" ["word"])
  /\ outcome (generate_random_phrase
                (Sample.env (Ok []) (Ok Sample.unstructured))
                (JList [JStr "sun"; JNum 7]) (JStr ""))
     = Raise (ValidationError "PhraseOutput" ["words"])
  /\ outcome (translate (Sample.env (Ok []) (Ok Sample.unstructured))
                (Sample.request (Some Sample.bearer)
                   (JObj [("word", JNum 5)])))
     = Ok (error_body "An error occurred: validation error for TranslationOutput",
           500%Z).
Proof. repeat split. Qed.

(** C5 (as amended).  When the pipeline's result carries the structured
    attribute, the gateway returns that value as it is, whatever its
    arguments are.  When it does not and the arguments have the types the
    result schema declares (the words a list of strings; the word and the
    two languages strings), the gateway returns, without raising, a fallback
    built from the result's text: for a phrase, the text as [phrase] with
    the given words echoed unchanged; for a translation, the text as
    [primary_translation] with no alternatives, no examples and empty
    notes. *)
Theorem gateway_result_or_fallback (env : Env) :
  (forall words user_context r,
     random_phrase_kickoff env (phrase_inputs env words user_context) = Ok r ->
     (forall o, pydantic r = Some o ->
        outcome (generate_random_phrase env words user_context) = Ok o)
     /\ (pydantic r = None ->
         forall ws, words = JList (map JStr ws) ->
           outcome (generate_random_phrase env words user_context)
           = Ok (PyPhrase {| PhraseOutput.phrase := raw r;
                             PhraseOutput.words := ws |})))
  /\ (forall word source_language target_language user_context r,
        translation_kickoff env
          (translation_inputs word source_language target_language
             user_context) = Ok r ->
        (forall o, pydantic r = Some o ->
           outcome (translate_word env word source_language target_language
                      user_context) = Ok o)
        /\ (pydantic r = None ->
            forall w sl tl,
              word = JStr w -> source_language = JStr sl ->
              target_language = JStr tl ->
              outcome (translate_word env word source_language
                         target_language user_context)
              = Ok (PyTranslation
                      {| TranslationOutput.word := w;
                         TranslationOutput.source_language := sl;
                         TranslationOutput.target_language := tl;
                         TranslationOutput.primary_translation := raw r;
                         TranslationOutput.alternative_translations := [];
                         TranslationOutput.examples := [];
                         TranslationOutput.notes := "" |}))).
Proof.
  split.
  - intros words ctx r K. unfold phrase_inputs in K.
    unfold generate_random_phrase, outcome, bind, call; simpl.
    rewrite K; simpl. split.
    + intros o P. now rewrite P.
    + intros P ws ->. rewrite P; simpl.
      unfold PhraseOutput_init; simpl. now rewrite as_str_items_strings.
  - intros word sl tl ctx r K. unfold translation_inputs in K.
    unfold translate_word, outcome, bind, call; simpl.
    rewrite K; simpl. split.
    + intros o P. now rewrite P.
    + intros P w s t -> -> ->. now rewrite P.
Qed.

(** ** Forwarding the words *)

Lemma try_except_cons {A : Type} (ev : event) (k : M A) (h : exn -> M A) :
  try_except (ev :: fst k, snd k) h
  = (ev :: fst (try_except k h), snd (try_except k h)).
Proof. destruct k as [t [a|e]]; reflexivity. Qed.

Lemma respond_status (env : Env) (generated : M pyobj) :
  returns (fun r => status r = 200%Z \/ status r = 500%Z)
    (respond env generated).
Proof. unfold respond. repeat returns_step; simpl; auto. Qed.

Lemma respond_trace_all (env : Env) (generated : M pyobj) :
  fst (respond env generated) = fst generated.
Proof. unfold respond. now rewrite trace_boundary, respond_trace. Qed.

(** Past authentication and validation, the phrase endpoint is the profile
    fetch followed by the gateway's answer on the words of the body. *)
Lemma get_random_phrase_valid (env : Env) (request : Request) (h : string)
    (u : User.t) (d : list (string * json)) (x : json) (l : list json) :
  authenticated env request h u ->
  get_json request = Ok (JObj d) ->
  lookup "words" d = Some (JList (x :: l)) ->
  let answer :=
    respond env
      (generate_random_phrase env (JList (x :: l))
         (py_or (fetched_context
                   (profiles_select env "context" (User.id u) (token_of h)))
            (JStr ""))) in
  get_random_phrase env request
  = (AuthGetUser (token_of h)
       :: ProfilesSelect "context" (User.id u) (token_of h) :: fst answer,
     snd answer).
Proof.
  intros A J W answer. pose proof A as (H & _ & _).
  unfold get_random_phrase. rewrite (require_auth_accepted _ _ _ _ _ A).
  unfold get_random_phrase_view.
  rewrite (get_random_phrase_try_valid _ (set_user request u) d x l J W).
  unfold get_random_phrase_serve. enter_serve H.
  rewrite try_except_cons. reflexivity.
Qed.

(** C10.  The phrase endpoint lets every non-empty list through, whatever
    its elements are: no 400 is answered, and the list of the body is what
    the generator is called with, element for element. *)
Theorem words_forwarded_unchecked (env : Env) (request : Request)
    (h : string) (u : User.t) (d : list (string * json)) (x : json)
    (l : list json) :
  authenticated env request h u ->
  get_json request = Ok (JObj d) ->
  lookup "words" d = Some (JList (x :: l)) ->
  let user_context :=
    py_or (fetched_context
             (profiles_select env "context" (User.id u) (token_of h)))
      (JStr "") in
  let answer :=
    respond env (generate_random_phrase env (JList (x :: l)) user_context) in
  outcome (get_random_phrase env request) = outcome answer
  /\ trace (get_random_phrase env request)
     = [AuthGetUser (token_of h);
        ProfilesSelect "context" (User.id u) (token_of h);
        RandomPhraseKickoff (phrase_inputs env (JList (x :: l)) user_context)]
  /\ (exists r, outcome (get_random_phrase env request) = Ok r
                /\ (status r = 200%Z \/ status r = 500%Z)).
Proof.
  intros A J W user_context answer.
  rewrite (get_random_phrase_valid _ _ _ _ _ _ _ A J W).
  fold user_context. fold answer. unfold outcome, trace; simpl.
  split; [reflexivity|]. split.
  - unfold answer. rewrite respond_trace_all, generate_random_phrase_trace.
    reflexivity.
  - pose proof (respond_status env
                  (generate_random_phrase env (JList (x :: l)) user_context))
      as S.
    fold answer in S. unfold returns in S.
    destruct (boundary_returns env
                (result <- generate_random_phrase env (JList (x :: l))
                             user_context;;
                 body <- lift (model_dump result);; ret (body, 200%Z)))
      as [r R].
    change (snd answer = Ok r) in R. rewrite R in S. eauto.
Qed.

(** ** A failing profile fetch *)

Lemma outcome_bind_ok {A B : Type} (m : M A) (f : A -> M B) (a : A) :
  snd m = Ok a -> snd (bind m f) = snd (f a).
Proof. intros H. unfold bind. now rewrite H. Qed.

Lemma outcome_bind_raise {A B : Type} (m : M A) (f : A -> M B) (e : exn) :
  snd m = Raise e -> snd (bind m f) = Raise e.
Proof. intros H. unfold bind. now rewrite H. Qed.

Ltac through_validation :=
  repeat match goal with
    | |- context [bind (lift ?r) _] =>
        destruct r; rewrite ?bind_lift_ok, ?bind_lift_raise
    | |- context [if ?b then _ else _] => destruct b
    end.

Section Degraded.

Variable env : Env.
Variable request : Request.
Variable h : string.
Variable u : User.t.
Hypothesis passes : authenticated env request h u.
Hypothesis fails :
  forall columns, exists e,
    profiles_select env columns (User.id u) (token_of h) = Raise e.

Lemma degraded_header : headers_Authorization request = Some h.
Proof. destruct passes as (H & _); exact H. Qed.

Lemma translate_serve_degraded (w sl tl : json) :
  translate_serve env (set_user request u) w sl tl
  = translate_serve (without_profile env) (set_user request u) w sl tl.
Proof.
  destruct (fails "*") as [e E].
  unfold translate_serve.
  rewrite request_user_set, (header_token_set _ _ _ degraded_header), !bind_lift_ok.
  rewrite !get_user_profile_run, E. reflexivity.
Qed.

Lemma get_random_phrase_serve_degraded (words : json) :
  get_random_phrase_serve env (set_user request u) words
  = get_random_phrase_serve (without_profile env) (set_user request u) words.
Proof.
  destruct (fails "context") as [e E].
  unfold get_random_phrase_serve.
  rewrite request_user_set, (header_token_set _ _ _ degraded_header), !bind_lift_ok.
  rewrite !get_user_context_run, E. reflexivity.
Qed.

Lemma translate_degraded :
  translate env request = translate (without_profile env) request.
Proof.
  unfold translate.
  rewrite (require_auth_accepted env _ _ _ _ passes).
  rewrite (require_auth_accepted (without_profile env) _ _ _ _ passes).
  assert (E : translate_view env (set_user request u)
              = translate_view (without_profile env) (set_user request u)).
  { unfold translate_view. f_equal. unfold translate_try.
    through_validation; try reflexivity. apply translate_serve_degraded. }
  now rewrite E.
Qed.

Lemma get_random_phrase_degraded :
  get_random_phrase env request
  = get_random_phrase (without_profile env) request.
Proof.
  unfold get_random_phrase.
  rewrite (require_auth_accepted env _ _ _ _ passes).
  rewrite (require_auth_accepted (without_profile env) _ _ _ _ passes).
  assert (E : get_random_phrase_view env (set_user request u)
              = get_random_phrase_view (without_profile env)
                  (set_user request u)).
  { unfold get_random_phrase_view. f_equal. unfold get_random_phrase_try.
    through_validation; try reflexivity.
    apply get_random_phrase_serve_degraded. }
  now rewrite E.
Qed.

Lemma translate_degraded_200 (d : list (string * json)) (word : json)
    (o : pyobj) (body : json) :
  get_json request = Ok (JObj d) ->
  lookup "word" d = Some word ->
  truthy word = true ->
  outcome (translate_word env word
             (precedence (field d "source_language") None
                "native_language" "English")
             (precedence (field d "target_language") None
                "target_language" "Spanish")
             (JStr "")) = Ok o ->
  model_dump o = Ok body ->
  outcome (translate env request) = Ok (body, 200%Z).
Proof.
  intros J W T G D. destruct (fails "*") as [e E].
  unfold translate, outcome.
  rewrite (require_auth_accepted env _ _ _ _ passes); simpl.
  unfold translate_view.
  rewrite (translate_try_valid _ (set_user request u) d word J W T).
  unfold translate_serve. enter_serve degraded_header. rewrite E; simpl fetched_profile.
  rewrite !(resolve_language_precedence _ None), !bind_lift_ok.
  simpl truthy. cbv iota. rewrite bind_ret.
  rewrite try_except_cons; simpl.
  erewrite boundary_ok; [|erewrite outcome_bind_ok by exact G].
  - erewrite outcome_bind_ok by exact G. now rewrite D.
  - now rewrite D.
Qed.

Lemma get_random_phrase_degraded_200 (d : list (string * json)) (x : json)
    (l : list json) (o : pyobj) (body : json) :
  get_json request = Ok (JObj d) ->
  lookup "words" d = Some (JList (x :: l)) ->
  outcome (generate_random_phrase env (JList (x :: l)) (JStr "")) = Ok o ->
  model_dump o = Ok body ->
  outcome (get_random_phrase env request) = Ok (body, 200%Z).
Proof.
  intros J W G D. destruct (fails "context") as [e E].
  rewrite (get_random_phrase_valid _ _ _ _ _ _ _ passes J W).
  rewrite E. unfold outcome; simpl. unfold respond.
  erewrite boundary_ok; [|erewrite outcome_bind_ok by exact G].
  - erewrite outcome_bind_ok by exact G. now rewrite D.
  - now rewrite D.
Qed.

End Degraded.

(** C4.  For an authenticated request whose profile fetch raises, the
    handler answers exactly as it does when the user has no profile row, so
    the failure is never visible to the caller; the parameters are the
    request's own values completed by the defaults and an empty context, and
    once the generation gateway returns a serialisable result the answer is
    200 with that result. *)
Theorem profile_failure_degrades (env : Env) (request : Request) (h : string)
    (u : User.t) :
  authenticated env request h u ->
  (forall columns, exists e,
     profiles_select env columns (User.id u) (token_of h) = Raise e) ->
  (translate env request = translate (without_profile env) request
   /\ get_random_phrase env request
      = get_random_phrase (without_profile env) request)
  /\ (forall d word o body,
        get_json request = Ok (JObj d) ->
        lookup "word" d = Some word ->
        truthy word = true ->
        outcome (translate_word env word
                   (precedence (field d "source_language") None
                      "native_language" "English")
                   (precedence (field d "target_language") None
                      "target_language" "Spanish")
                   (JStr "")) = Ok o ->
        model_dump o = Ok body ->
        outcome (translate env request) = Ok (body, 200%Z))
  /\ (forall d x l o body,
        get_json request = Ok (JObj d) ->
        lookup "words" d = Some (JList (x :: l)) ->
        outcome (generate_random_phrase env (JList (x :: l)) (JStr ""))
        = Ok o ->
        model_dump o = Ok body ->
        outcome (get_random_phrase env request) = Ok (body, 200%Z)).
Proof.
  intros A F. split; [split|split].
  - now apply translate_degraded with (h := h) (u := u).
  - now apply get_random_phrase_degraded with (h := h) (u := u).
  - intros d word o body. now apply translate_degraded_200 with (h := h) (u := u).
  - intros d x l o body.
    now apply get_random_phrase_degraded_200 with (h := h) (u := u).
Qed.

(** ** The handler boundary *)

Lemma view_raise (env : Env) (f : Request -> M Response) (request : Request)
    (h : string) (u : User.t) (e : exn) :
  authenticated env request h u ->
  snd (f (set_user request u)) = Raise e ->
  outcome (require_auth env
             (fun request' => try_except (f request') (on_error env)) request)
  = Ok (server_error env e).
Proof.
  intros A R. unfold outcome.
  rewrite (require_auth_accepted _ _ _ _ _ A); simpl.
  now rewrite (boundary_raise _ _ _ R).
Qed.

Lemma translate_word_raises (env : Env) (w sl tl ctx : json) (e : exn) :
  (forall inputs, translation_kickoff env inputs = Raise e) ->
  snd (translate_word env w sl tl ctx) = Raise e.
Proof.
  intros K. unfold translate_word, bind, call; simpl. now rewrite K.
Qed.

Lemma generate_random_phrase_raises (env : Env) (words ctx : json) (e : exn) :
  (forall inputs, random_phrase_kickoff env inputs = Raise e) ->
  snd (generate_random_phrase env words ctx) = Raise e.
Proof.
  intros K. unfold generate_random_phrase, bind, call; simpl. now rewrite K.
Qed.

(** C8.  Past authentication, an exception raised anywhere in the body of a
    handler is caught at the handler boundary: the answer is status 500 with
    a payload that holds the error message built from the exception's string
    form and nothing else.  This covers an exception of the body parser and
    one of the generation pipeline. *)
Theorem unexpected_exception_is_500 (env : Env) (request : Request)
    (h : string) (u : User.t) (e : exn) :
  authenticated env request h u ->
  (outcome (get_random_phrase_try env (set_user request u)) = Raise e ->
   outcome (get_random_phrase env request) = Ok (server_error env e))
  /\ (outcome (translate_try env (set_user request u)) = Raise e ->
      outcome (translate env request) = Ok (server_error env e))
  /\ (get_json request = Raise e ->
      outcome (get_random_phrase env request) = Ok (server_error env e)
      /\ outcome (translate env request) = Ok (server_error env e))
  /\ (forall d x l,
        get_json request = Ok (JObj d) ->
        lookup "words" d = Some (JList (x :: l)) ->
        (forall inputs, random_phrase_kickoff env inputs = Raise e) ->
        outcome (get_random_phrase env request) = Ok (server_error env e))
  /\ (forall d word profile,
        get_json request = Ok (JObj d) ->
        lookup "word" d = Some word ->
        truthy word = true ->
        fetched_profile (profiles_select env "*" (User.id u) (token_of h))
        = profile_json profile ->
        (forall inputs, translation_kickoff env inputs = Raise e) ->
        outcome (translate env request) = Ok (server_error env e)).
Proof.
  intros A. pose proof A as (H & _ & _).
  split; [|split; [|split; [|split]]].
  - intros R. exact (view_raise env (get_random_phrase_try env) _ _ _ _ A R).
  - intros R. exact (view_raise env (translate_try env) _ _ _ _ A R).
  - intros J. split.
    + apply (view_raise env (get_random_phrase_try env) _ _ _ _ A).
      unfold get_random_phrase_try; simpl. now rewrite J.
    + apply (view_raise env (translate_try env) _ _ _ _ A).
      unfold translate_try; simpl. now rewrite J.
  - intros d x l J W K.
    apply (view_raise env (get_random_phrase_try env) _ _ _ _ A).
    rewrite (get_random_phrase_try_valid _ (set_user request u) d x l J W).
    unfold get_random_phrase_serve. enter_serve H; simpl.
    apply outcome_bind_raise. now apply generate_random_phrase_raises.
  - intros d word profile J W T P K.
    apply (view_raise env (translate_try env) _ _ _ _ A).
    rewrite (translate_try_valid _ (set_user request u) d word J W T).
    unfold translate_serve. enter_serve H; simpl. rewrite P.
    rewrite !resolve_language_precedence, !bind_lift_ok.
    assert (C : exists c,
               (if truthy (profile_json profile)
                then lift (py_get (profile_json profile) "context" (JStr ""))
                else ret (JStr "")) = lift (Ok c)).
    { destruct profile as [[|kv p]|]; eexists; reflexivity. }
    destruct C as [c ->]. rewrite bind_lift_ok.
    apply outcome_bind_raise. now apply translate_word_raises.
Qed.

(** ** Validation comes after authentication *)

(** A phrase request with no [words] and no Authorization header is answered
    401, not 400; and with a header, the identity service has been called by
    the time the 400 is answered. *)
Lemma bad_shape_meets_authentication_first :
  words_rejected [] = true
  /\ outcome (get_random_phrase (Sample.env (Ok []) (Ok Sample.structured))
                (Sample.request None (JObj [])))
     = Ok (error_body "Authorization header is required", 401%Z)
  /\ words_rejected [("words", JList [])] = true
  /\ get_random_phrase (Sample.env (Ok []) (Ok Sample.structured))
       (Sample.request (Some "Bearer abc123") (JObj [("words", JList [])]))
     = ([AuthGetUser "abc123"],
        Ok (error_body "'words' must be a non-empty array", 400%Z))
  /\ word_rejected [("word", JStr "")] = true
  /\ translate (Sample.env (Ok []) (Ok Sample.structured))
       (Sample.request (Some "nobody") (JObj [("word", JStr "")]))
     = ([AuthGetUser "nobody"],
        Ok (error_body "Authentication failed: invalid JWT", 401%Z)).
Proof. repeat split. Qed.

(** ** The theorems at sample requests *)

Lemma sample_bearer_passes (rows : result (list json))
    (pipeline : result CrewOutput) (body : json) :
  authenticated (Sample.env rows pipeline)
    (Sample.request (Some Sample.bearer) body) Sample.bearer Sample.u1.
Proof. repeat split. Defined.

Lemma translate_language_precedence_witness :
  exists user_context,
    trace (translate (Sample.env (Ok [Sample.profile]) (Ok Sample.structured))
             (Sample.request (Some Sample.bearer)
                (JObj [("word", JStr "hi");
                       ("target_language", JStr "Italian")])))
    = [AuthGetUser "abc123";
       ProfilesSelect "*" "u1" "abc123";
       TranslationKickoff
         [("word", JStr "hi");
          ("source_language", JStr "French");
          ("target_language", JStr "Italian");
          ("user_context", user_context)]].
Proof.
  exact (translate_language_precedence
           (Sample.env (Ok [Sample.profile]) (Ok Sample.structured))
           (Sample.request (Some Sample.bearer)
              (JObj [("word", JStr "hi"); ("target_language", JStr "Italian")]))
           Sample.bearer Sample.u1
           [("word", JStr "hi"); ("target_language", JStr "Italian")]
           (JStr "hi") (Some Sample.profile_row)
           (sample_bearer_passes _ _ _) eq_refl eq_refl eq_refl eq_refl).
Defined.

Lemma token_extraction_witness :
  extract_token "Bearer abc123" = Ok "abc123"
  /\ token_of "Bearer abc123" = after space "Bearer abc123"
  /\ token_of "abc123" = "abc123"
  /\ exists rest,
       trace (translate (Sample.env (Ok []) (Ok Sample.structured))
                (Sample.request (Some Sample.bearer)
                   (JObj [("word", JStr "hi")])))
       = AuthGetUser "abc123" :: ProfilesSelect "*" "u1" "abc123" :: rest.
Proof.
  destruct (token_extraction "Bearer abc123") as (E & S & _ & T).
  destruct (token_extraction "abc123") as (_ & _ & P & _).
  split; [exact E|]. split; [exact (proj2 (S eq_refl) eq_refl)|].
  split; [exact (P eq_refl)|].
  exact (proj2 (T _ _ _ [("word", JStr "hi")]
                  (sample_bearer_passes _ _ _) eq_refl)
           (JStr "hi") eq_refl eq_refl).
Defined.

Lemma bad_shape_stops_after_authentication_witness :
  (trace (get_random_phrase (Sample.env (Ok []) (Ok Sample.structured))
            (Sample.request (Some Sample.bearer) (JObj [("words", JList [])])))
   = [AuthGetUser "abc123"]
   /\ exists msg,
       outcome (get_random_phrase (Sample.env (Ok []) (Ok Sample.structured))
                  (Sample.request (Some Sample.bearer)
                     (JObj [("words", JList [])])))
       = Ok (error_body msg, 400%Z))
  /\ (trace (translate (Sample.env (Ok []) (Ok Sample.structured))
               (Sample.request (Some Sample.bearer)
                  (JObj [("words", JList [])])))
      = [AuthGetUser "abc123"]
      /\ exists msg,
          outcome (translate (Sample.env (Ok []) (Ok Sample.structured))
                     (Sample.request (Some Sample.bearer)
                        (JObj [("words", JList [])])))
          = Ok (error_body msg, 400%Z)).
Proof.
  destruct (bad_shape_stops_after_authentication
              (Sample.env (Ok []) (Ok Sample.structured))
              (Sample.request (Some Sample.bearer) (JObj [("words", JList [])]))
              Sample.bearer Sample.u1 [("words", JList [])]
              (sample_bearer_passes _ _ _) eq_refl) as (P & T).
  split; [exact (P eq_refl) | exact (T eq_refl)].
Defined.

Lemma profile_failure_degrades_witness :
  exists body,
    model_dump (PyTranslation Sample.hola) = Ok body
    /\ outcome (translate (Sample.env (Raise (Exception "db down"))
                             (Ok Sample.structured))
                  (Sample.request (Some Sample.bearer)
                     (JObj [("word", JStr "hi")])))
       = Ok (body, 200%Z).
Proof.
  eexists. split; [reflexivity|].
  refine (proj1 (proj2 (profile_failure_degrades
                          (Sample.env (Raise (Exception "db down"))
                             (Ok Sample.structured))
                          (Sample.request (Some Sample.bearer)
                             (JObj [("word", JStr "hi")]))
                          Sample.bearer Sample.u1
                          (sample_bearer_passes _ _ _)
                          (fun _ => ex_intro _ (Exception "db down") eq_refl)))
            [("word", JStr "hi")] (JStr "hi") (PyTranslation Sample.hola) _
            eq_refl eq_refl eq_refl eq_refl eq_refl).
Defined.

Lemma gateway_result_or_fallback_witness :
  outcome (generate_random_phrase
             (Sample.env (Ok []) (Ok Sample.unstructured))
             (JList [JStr "sun"; JStr "run"]) (JStr ""))
  = Ok (PyPhrase {| PhraseOutput.phrase := "hola";
                    PhraseOutput.words := ["sun"; "run"] |})
  /\ outcome (translate_word (Sample.env (Ok []) (Ok Sample.unstructured))
                (JStr "hi") (JStr "English") (JStr "Spanish") (JStr ""))
     = Ok (PyTranslation Sample.hola)
  /\ outcome (translate_word (Sample.env (Ok []) (Ok Sample.structured))
                (JStr "hi") (JStr "English") (JStr "Spanish") (JStr ""))
     = Ok (PyTranslation Sample.hola).
Proof.
  destruct (gateway_result_or_fallback
              (Sample.env (Ok []) (Ok Sample.unstructured))) as (P & T).
  destruct (gateway_result_or_fallback
              (Sample.env (Ok []) (Ok Sample.structured))) as (_ & T').
  split; [|split].
  - exact (proj2 (P (JList [JStr "sun"; JStr "run"]) (JStr "")
                    Sample.unstructured eq_refl)
             eq_refl ["sun"; "run"] eq_refl).
  - exact (proj2 (T (JStr "hi") (JStr "English") (JStr "Spanish") (JStr "")
                    Sample.unstructured eq_refl)
             eq_refl "hi" "English" "Spanish" eq_refl eq_refl eq_refl).
  - exact (proj1 (T' (JStr "hi") (JStr "English") (JStr "Spanish") (JStr "")
                     Sample.structured eq_refl)
             (PyTranslation Sample.hola) eq_refl).
Defined.

Lemma missing_or_rejected_credential_is_401_witness :
  translate (Sample.env (Ok []) (Ok Sample.structured))
    (Sample.request None (JObj [("word", JStr "hi")]))
  = ([], Ok (error_body "Authorization header is required", 401%Z))
  /\ get_random_phrase (Sample.env (Ok []) (Ok Sample.structured))
       (Sample.request (Some "Bearer expired") (JObj [("words", JList [])]))
     = ([AuthGetUser "expired"],
        Ok (error_body "Authentication failed: invalid JWT", 401%Z)).
Proof.
  split.
  - exact (proj2 (proj1 (missing_or_rejected_credential_is_401
                           (Sample.env (Ok []) (Ok Sample.structured))
                           (Sample.request None (JObj [("word", JStr "hi")])))
                    eq_refl)).
  - exact (proj1 (proj2 (missing_or_rejected_credential_is_401
                           (Sample.env (Ok []) (Ok Sample.structured))
                           (Sample.request (Some "Bearer expired")
                              (JObj [("words", JList [])])))
                    "Bearer expired" (Exception "invalid JWT")
                    eq_refl eq_refl eq_refl)).
Defined.

Lemma invalid_fields_are_400_witness :
  outcome (get_random_phrase (Sample.env (Ok []) (Ok Sample.structured))
             (Sample.request (Some Sample.bearer)
                (JObj [("words", JStr "x")])))
  = Ok (error_body "'words' must be a non-empty array", 400%Z)
  /\ outcome (translate (Sample.env (Ok []) (Ok Sample.structured))
                (Sample.request (Some Sample.bearer)
                   (JObj [("words", JStr "x")])))
     = Ok (error_body "Request body must include 'word'", 400%Z)
  /\ outcome (translate (Sample.env (Ok []) (Ok Sample.structured))
                (Sample.request (Some Sample.bearer)
                   (JObj [("word", JStr "")])))
     = Ok (error_body "'word' cannot be empty", 400%Z).
Proof.
  destruct (invalid_fields_are_400
              (Sample.env (Ok []) (Ok Sample.structured))
              (Sample.request (Some Sample.bearer) (JObj [("words", JStr "x")]))
              Sample.bearer Sample.u1 [("words", JStr "x")]
              (sample_bearer_passes _ _ _) eq_refl) as (P & _ & T).
  destruct (invalid_fields_are_400
              (Sample.env (Ok []) (Ok Sample.structured))
              (Sample.request (Some Sample.bearer) (JObj [("word", JStr "")]))
              Sample.bearer Sample.u1 [("word", JStr "")]
              (sample_bearer_passes _ _ _) eq_refl) as (_ & E & _).
  split; [|split].
  - exact (P (JStr "x") eq_refl (or_intror eq_refl)).
  - exact (T eq_refl).
  - exact (E eq_refl).
Defined.

Lemma unexpected_exception_is_500_witness :
  outcome (translate (Sample.env (Ok []) (Raise (Exception "model overloaded")))
             (Sample.request (Some Sample.bearer)
                (JObj [("word", JStr "hi"); ("words", JList [JStr "sun"])])))
  = Ok (error_body "An error occurred: model overloaded", 500%Z)
  /\ outcome (get_random_phrase
                (Sample.env (Ok []) (Raise (Exception "model overloaded")))
                (Sample.request (Some Sample.bearer)
                   (JObj [("word", JStr "hi");
                          ("words", JList [JStr "sun"])])))
     = Ok (error_body "An error occurred: model overloaded", 500%Z).
Proof.
  destruct (unexpected_exception_is_500
              (Sample.env (Ok []) (Raise (Exception "model overloaded")))
              (Sample.request (Some Sample.bearer)
                 (JObj [("word", JStr "hi"); ("words", JList [JStr "sun"])]))
              Sample.bearer Sample.u1 (Exception "model overloaded")
              (sample_bearer_passes _ _ _)) as (_ & _ & _ & P & T).
  split.
  - exact (T _ (JStr "hi") None eq_refl eq_refl eq_refl eq_refl
             (fun _ => eq_refl)).
  - exact (P _ (JStr "sun") [] eq_refl eq_refl (fun _ => eq_refl)).
Defined.

Lemma invalid_format_branch_unreachable_witness :
  2 <= length (split space "Bearer abc123")
  /\ outcome (translate (Sample.env (Ok []) (Ok Sample.structured))
                (Sample.request (Some " ") JNull))
     <> Ok invalid_format.
Proof.
  destruct invalid_format_branch_unreachable as (S & _ & N).
  split; [exact (S "Bearer abc123" eq_refl)|].
  exact (proj2 (N _ _)).
Defined.

Lemma words_forwarded_unchecked_witness :
  trace (get_random_phrase (Sample.env (Ok []) (Ok Sample.unstructured))
           (Sample.request (Some Sample.bearer)
              (JObj [("words", JList [JStr "sun"; JStr ""; JNum 7])])))
  = [AuthGetUser "abc123";
     ProfilesSelect "context" "u1" "abc123";
     RandomPhraseKickoff
       (phrase_inputs (Sample.env (Ok []) (Ok Sample.unstructured))
          (JList [JStr "sun"; JStr ""; JNum 7]) (JStr ""))].
Proof.
  exact (proj1 (proj2 (words_forwarded_unchecked
                         (Sample.env (Ok []) (Ok Sample.unstructured))
                         (Sample.request (Some Sample.bearer)
                            (JObj [("words",
                                     JList [JStr "sun"; JStr ""; JNum 7])]))
                         Sample.bearer Sample.u1
                         [("words", JList [JStr "sun"; JStr ""; JNum 7])]
                         (JStr "sun") [JStr ""; JNum 7]
                         (sample_bearer_passes _ _ _) eq_refl eq_refl))).
Defined.

(** * Further properties of the module *)

(** ** Every run has one of a few shapes *)

Ltac through_body :=
  repeat match goal with
    | |- context [bind (lift ?r) _] =>
        destruct r; rewrite ?bind_lift_ok, ?bind_lift_raise
    | |- context [bind (ret _) _] => rewrite bind_ret
    | |- context [if ?b then _ else _] => destruct b
    end.

Ltac close_shape :=
  unfold try_except, on_error, raise, ret, bind, lift; simpl;
  rewrite ?app_nil_r; econstructor; eassumption.

Lemma translate_view_shape (env : Env) (request : Request) (h : string)
    (u : User.t) :
  headers_Authorization request = Some h ->
  view_shape env "*" TranslationKickoff (User.id u) (token_of h)
    (fst (translate_view env (set_user request u)),
     snd (translate_view env (set_user request u))).
Proof.
  intros H. unfold translate_view, translate_try.
  destruct (get_json (set_user request u)) as [data|e];
    rewrite ?bind_lift_ok, ?bind_lift_raise; [|close_shape].
  destruct (lacks data "word") as [[|]|e];
    rewrite ?bind_lift_ok, ?bind_lift_raise; try close_shape.
  destruct (py_get data "word" JNull) as [word|e];
    rewrite ?bind_lift_ok, ?bind_lift_raise; [|close_shape].
  destruct (py_get data "source_language" JNull) as [sl|e];
    rewrite ?bind_lift_ok, ?bind_lift_raise; [|close_shape].
  destruct (py_get data "target_language" JNull) as [tl|e];
    rewrite ?bind_lift_ok, ?bind_lift_raise; [|close_shape].
  destruct (negb (truthy word)); [close_shape|].
  unfold translate_serve. enter_serve H. rewrite try_except_cons.
  set (p := fetched_profile _).
  destruct (resolve_language sl p "native_language" "English") as [sl'|e];
    rewrite ?bind_lift_ok, ?bind_lift_raise; [|close_shape].
  destruct (resolve_language tl p "target_language" "Spanish") as [tl'|e];
    rewrite ?bind_lift_ok, ?bind_lift_raise; [|close_shape].
  assert (C : (exists c, (if truthy p
                          then lift (py_get p "context" (JStr ""))
                          else ret (JStr "")) = lift (Ok c))
              \/ (exists e, (if truthy p
                             then lift (py_get p "context" (JStr ""))
                             else ret (JStr "")) = lift (Raise e))).
  { destruct (truthy p); [|left; eexists; reflexivity].
    destruct (py_get p "context" (JStr "")); [left|right]; eexists; reflexivity. }
  destruct C as [[c ->]|[e ->]];
    rewrite ?bind_lift_ok, ?bind_lift_raise; [|close_shape].
  pose proof (translate_word_trace env word sl' tl' (py_or c (JStr ""))) as T.
  destruct (translate_word env word sl' tl' (py_or c (JStr ""))) as [t [o|e]];
    simpl in T; subst t; [|close_shape].
  destruct (model_dump o) as [body|e] eqn:D.
  - unfold try_except, bind, lift, ret; simpl. rewrite D; simpl.
    econstructor; eassumption.
  - unfold try_except, bind, lift, ret, on_error; simpl. rewrite D; simpl.
    econstructor.
Qed.

Lemma get_random_phrase_view_shape (env : Env) (request : Request)
    (h : string) (u : User.t) :
  headers_Authorization request = Some h ->
  view_shape env "context" RandomPhraseKickoff (User.id u) (token_of h)
    (fst (get_random_phrase_view env (set_user request u)),
     snd (get_random_phrase_view env (set_user request u))).
Proof.
  intros H. unfold get_random_phrase_view, get_random_phrase_try.
  destruct (get_json (set_user request u)) as [data|e];
    rewrite ?bind_lift_ok, ?bind_lift_raise; [|close_shape].
  destruct (lacks data "words") as [[|]|e];
    rewrite ?bind_lift_ok, ?bind_lift_raise; try close_shape.
  destruct (py_get data "words" (JList [])) as [words|e];
    rewrite ?bind_lift_ok, ?bind_lift_raise; [|close_shape].
  destruct (negb (is_list words) || Nat.eqb (py_len words) 0); [close_shape|].
  unfold get_random_phrase_serve. enter_serve H. rewrite try_except_cons.
  set (c := py_or _ _).
  pose proof (generate_random_phrase_trace env words c) as T.
  destruct (generate_random_phrase env words c) as [t [o|e]];
    simpl in T; subst t; [|close_shape].
  destruct (model_dump o) as [body|e] eqn:D.
  - unfold try_except, bind, lift, ret; simpl. rewrite D; simpl.
    econstructor; eassumption.
  - unfold try_except, bind, lift, ret, on_error; simpl. rewrite D; simpl.
    econstructor.
Qed.

Lemma require_auth_shape (env : Env) (columns : string)
    (kick : inputs_t -> event) (f : Request -> M Response)
    (request : Request) :
  (forall h u, headers_Authorization request = Some h ->
     view_shape env columns kick (User.id u) (token_of h)
       (fst (f (set_user request u)), snd (f (set_user request u)))) ->
  run_shape env columns kick (require_auth env f request).
Proof.
  intros F.
  destruct (headers_Authorization request) as [h|] eqn:H.
  - destruct (truthy (JStr h)) eqn:T.
    + destruct (auth_get_user env (token_of h)) as [u|e] eqn:R.
      * rewrite (require_auth_accepted env f request h u (conj H (conj T R))).
        apply (Accepted env columns kick (token_of h) u); [exact R | now apply F].
      * rewrite (require_auth_rejected env f request h e H T R).
        now apply Rejected.
    + rewrite (require_auth_empty env f request h H T). apply NoCredential.
  - rewrite (require_auth_missing env f request H). apply NoCredential.
Qed.

Lemma translate_shape (env : Env) (request : Request) :
  run_shape env "*" TranslationKickoff (translate env request).
Proof.
  apply require_auth_shape. intros h u H. now apply translate_view_shape.
Qed.

Lemma get_random_phrase_shape (env : Env) (request : Request) :
  run_shape env "context" RandomPhraseKickoff (get_random_phrase env request).
Proof.
  apply require_auth_shape. intros h u H.
  now apply get_random_phrase_view_shape.
Qed.

Ltac by_shape S :=
  inversion S; subst;
  try match goal with
      | V : view_shape _ _ _ _ _ _ |- _ => inversion V; subst
      end.

(** X1.  Both endpoints answer every request: no exception leaves a
    handler, and the status is 200, 400, 401 or 500. *)
Theorem endpoints_always_answer (env : Env) (request : Request) :
  (exists r, outcome (get_random_phrase env request) = Ok r
             /\ In (status r) [200; 400; 401; 500]%Z)
  /\ (exists r, outcome (translate env request) = Ok r
                /\ In (status r) [200; 400; 401; 500]%Z).
Proof.
  split.
  - pose proof (get_random_phrase_shape env request) as S.
    destruct (get_random_phrase env request) as [t r].
    by_shape S; eexists; (split; [reflexivity|]); simpl; auto.
  - pose proof (translate_shape env request) as S.
    destruct (translate env request) as [t r].
    by_shape S; eexists; (split; [reflexivity|]); simpl; auto.
Qed.

(** X2.  A 200 answer is only given after all three collaborators were
    called once each, in the order identity service, profile table,
    pipeline: the identity service accepted the credential for some user,
    and the profile was queried for that user's id with the same
    credential. *)
Theorem success_needs_all_collaborators (env : Env) (request : Request)
    (body : json) :
  (outcome (get_random_phrase env request) = Ok (body, 200%Z) ->
   exists token u inputs,
     auth_get_user env token = Ok u
     /\ trace (get_random_phrase env request)
        = full_trace "context" RandomPhraseKickoff token (User.id u) inputs)
  /\ (outcome (translate env request) = Ok (body, 200%Z) ->
      exists token u inputs,
        auth_get_user env token = Ok u
        /\ trace (translate env request)
           = full_trace "*" TranslationKickoff token (User.id u) inputs).
Proof.
  split.
  - pose proof (get_random_phrase_shape env request) as S.
    destruct (get_random_phrase env request) as [t r]. unfold outcome, trace.
    simpl. intros ->.
    by_shape S; try discriminate. do 3 eexists. split; [eassumption|].
    reflexivity.
  - pose proof (translate_shape env request) as S.
    destruct (translate env request) as [t r]. unfold outcome, trace.
    simpl. intros ->.
    by_shape S; try discriminate. do 3 eexists. split; [eassumption|].
    reflexivity.
Qed.

(** X3.  Whatever is not a 200 answer is an error payload: a JSON object
    whose only key is [error], holding a message. *)
Theorem failures_carry_error_payload (env : Env) (request : Request)
    (r : Response) :
  status r <> 200%Z ->
  (outcome (get_random_phrase env request) = Ok r ->
   exists msg, fst r = error_body msg)
  /\ (outcome (translate env request) = Ok r ->
      exists msg, fst r = error_body msg).
Proof.
  intros N. split.
  - pose proof (get_random_phrase_shape env request) as S.
    destruct (get_random_phrase env request) as [t o]. unfold outcome; simpl.
    intros ->. by_shape S; simpl; eauto. now contradiction N.
  - pose proof (translate_shape env request) as S.
    destruct (translate env request) as [t o]. unfold outcome; simpl.
    intros ->. by_shape S; simpl; eauto. now contradiction N.
Qed.

(** X4.  A request answered 400 or 401 never reaches the profile table or a
    pipeline: a 401 run made no call or the one identity call, and a 400 run
    made exactly the identity call, which accepted the credential. *)
Theorem refusals_stop_before_profile (env : Env) (request : Request)
    (r : Response) :
  (outcome (get_random_phrase env request) = Ok r ->
   (status r = 401%Z ->
    trace (get_random_phrase env request) = []
    \/ exists token e,
         auth_get_user env token = Raise e
         /\ trace (get_random_phrase env request) = [AuthGetUser token])
   /\ (status r = 400%Z ->
       exists token u,
         auth_get_user env token = Ok u
         /\ trace (get_random_phrase env request) = [AuthGetUser token]))
  /\ (outcome (translate env request) = Ok r ->
      (status r = 401%Z ->
       trace (translate env request) = []
       \/ exists token e,
            auth_get_user env token = Raise e
            /\ trace (translate env request) = [AuthGetUser token])
      /\ (status r = 400%Z ->
          exists token u,
            auth_get_user env token = Ok u
            /\ trace (translate env request) = [AuthGetUser token])).
Proof.
  split.
  - pose proof (get_random_phrase_shape env request) as S.
    destruct (get_random_phrase env request) as [t o].
    unfold outcome, trace; simpl. intros ->.
    by_shape S; (split; intros E; try discriminate E); eauto.
  - pose proof (translate_shape env request) as S.
    destruct (translate env request) as [t o].
    unfold outcome, trace; simpl. intros ->.
    by_shape S; (split; intros E; try discriminate E); eauto.
Qed.

(** X5.  The external calls of a run are always an initial part of the
    sequence identity service, profile table, pipeline, made with one and
    the same credential: no collaborator is called twice, none is retried,
    and none is called out of order. *)
Theorem calls_in_order_at_most_once (env : Env) (request : Request) :
  (exists token user_id inputs n,
     trace (get_random_phrase env request)
     = firstn n (full_trace "context" RandomPhraseKickoff token user_id inputs))
  /\ (exists token user_id inputs n,
        trace (translate env request)
        = firstn n (full_trace "*" TranslationKickoff token user_id inputs)).
Proof.
  split.
  - pose proof (get_random_phrase_shape env request) as S.
    destruct (get_random_phrase env request) as [t o]. unfold trace; simpl.
    by_shape S.
    + exists "", "", [], 0. reflexivity.
    + exists token, "", [], 1. reflexivity.
    + exists token, "", [], 1. reflexivity.
    + exists token, "", [], 1. reflexivity.
    + exists token, (User.id u), [], 2. reflexivity.
    + exists token, (User.id u), inputs, 3. reflexivity.
    + exists token, (User.id u), inputs, 3. reflexivity.
  - pose proof (translate_shape env request) as S.
    destruct (translate env request) as [t o]. unfold trace; simpl.
    by_shape S.
    + exists "", "", [], 0. reflexivity.
    + exists token, "", [], 1. reflexivity.
    + exists token, "", [], 1. reflexivity.
    + exists token, "", [], 1. reflexivity.
    + exists token, (User.id u), [], 2. reflexivity.
    + exists token, (User.id u), inputs, 3. reflexivity.
    + exists token, (User.id u), inputs, 3. reflexivity.
Qed.

(** ** More on the credential *)

Lemma contains_char_app (c : ascii) (s s' : string) :
  contains_char c (s ++ s') = contains_char c s || contains_char c s'.
Proof.
  induction s as [|c' s IH]; simpl; [reflexivity|].
  destruct (Ascii.eqb c' c); [reflexivity | exact IH].
Qed.

Lemma after_scheme (c : ascii) (scheme rest : string) :
  contains_char c scheme = false ->
  after c (scheme ++ String c rest) = rest.
Proof.
  induction scheme as [|c' s IH]; simpl; intros H.
  - now rewrite Ascii.eqb_refl.
  - destruct (Ascii.eqb c' c); [discriminate | now apply IH].
Qed.

Lemma before_no_char (c : ascii) (s : string) :
  contains_char c (before c s) = false.
Proof.
  induction s as [|c' s IH]; simpl; [reflexivity|].
  destruct (Ascii.eqb c' c) eqn:E; simpl; [reflexivity|]. now rewrite E.
Qed.

(** X6.  The scheme word is not looked at: for every scheme and credential
    that hold no space, the header made of the scheme, one space and the
    credential yields that credential (the empty one included). *)
Theorem any_scheme_is_accepted (scheme credential : string) :
  contains_char space scheme = false ->
  contains_char space credential = false ->
  extract_token (scheme ++ String space credential) = Ok credential.
Proof.
  intros S C.
  assert (H : contains_char space (scheme ++ String space credential) = true).
  { rewrite contains_char_app; simpl. apply orb_true_r. }
  rewrite (extract_token_spaced _ H), (after_scheme _ _ _ S).
  now rewrite (before_without _ _ C).
Qed.

(** X7.  The credential taken from a header never contains a space. *)
Theorem token_has_no_space (h token : string) :
  extract_token h = Ok token -> contains_char space token = false.
Proof.
  rewrite extract_token_total. intros E. injection E as <-.
  unfold token_of. destruct (contains_char space h) eqn:S.
  - apply before_no_char.
  - exact S.
Qed.

(** ** The context handed to the pipelines *)

Lemma stored_context_fetched (answer : result (list json)) :
  py_or (fetched_context answer) (JStr "") = stored_context answer.
Proof.
  destruct answer as [[|row rows]|e]; try reflexivity.
  destruct row; try reflexivity. simpl.
  destruct (lookup "context" d) as [v|]; [|reflexivity].
  unfold py_or. destruct (truthy v); reflexivity.
Qed.

(** X8.  For a phrase request that passes authentication and validation,
    the generator is called with the words of the body and, as user context,
    the context of the user's first profile row when that row has a
    non-empty one, and the empty string in every other case: the fetch
    raised, no row came back, the row has no [context] key, or its context
    is null or empty.  Further rows are not looked at.  What the pipeline
    receives under [words] and [user_context] is the JSON text of these two
    values. *)
Theorem phrase_context_resolution (env : Env) (request : Request)
    (h : string) (u : User.t) (d : list (string * json)) (x : json)
    (l : list json) :
  authenticated env request h u ->
  get_json request = Ok (JObj d) ->
  lookup "words" d = Some (JList (x :: l)) ->
  let user_context :=
    stored_context (profiles_select env "context" (User.id u) (token_of h)) in
  let answer :=
    respond env (generate_random_phrase env (JList (x :: l)) user_context) in
  get_random_phrase env request
  = (AuthGetUser (token_of h)
       :: ProfilesSelect "context" (User.id u) (token_of h) :: fst answer,
     snd answer)
  /\ trace (get_random_phrase env request)
     = full_trace "context" RandomPhraseKickoff (token_of h) (User.id u)
         [("words", JStr (as_text env (JList (x :: l))));
          ("user_context", JStr (as_text env user_context))].
Proof.
  intros A J W user_context answer.
  rewrite (get_random_phrase_valid _ _ _ _ _ _ _ A J W).
  rewrite stored_context_fetched. fold user_context. fold answer.
  split; [reflexivity|].
  unfold trace; simpl. unfold answer.
  now rewrite respond_trace_all, generate_random_phrase_trace.
Qed.

(** Past authentication and validation, the translate endpoint is the
    profile fetch followed by the gateway's answer on the resolved
    parameters. *)
Lemma translate_valid (env : Env) (request : Request) (h : string)
    (u : User.t) (d : list (string * json)) (word : json)
    (profile : option (list (string * json))) :
  authenticated env request h u ->
  get_json request = Ok (JObj d) ->
  lookup "word" d = Some word ->
  truthy word = true ->
  fetched_profile (profiles_select env "*" (User.id u) (token_of h))
  = profile_json profile ->
  let answer :=
    respond env
      (translate_word env word
         (precedence (field d "source_language") profile
            "native_language" "English")
         (precedence (field d "target_language") profile
            "target_language" "Spanish")
         (precedence JNull profile "context" "")) in
  translate env request
  = (AuthGetUser (token_of h)
       :: ProfilesSelect "*" (User.id u) (token_of h) :: fst answer,
     snd answer).
Proof.
  intros A J W T P answer. pose proof A as (H & _ & _).
  unfold translate. rewrite (require_auth_accepted _ _ _ _ _ A).
  unfold translate_view.
  rewrite (translate_try_valid _ (set_user request u) d word J W T).
  unfold translate_serve. enter_serve H. rewrite P.
  rewrite !resolve_language_precedence, !bind_lift_ok.
  assert (C : (if truthy (profile_json profile)
               then lift (py_get (profile_json profile) "context" (JStr ""))
               else ret (JStr ""))
              = lift (Ok (match profile with
                          | Some p => match lookup "context" p with
                                      | Some v => v
                                      | None => JStr ""
                                      end
                          | None => JStr ""
                          end))).
  { destruct profile as [[|kv p]|]; reflexivity. }
  rewrite C, bind_lift_ok, try_except_cons.
  assert (E : py_or (match profile with
                     | Some p => match lookup "context" p with
                                 | Some v => v
                                 | None => JStr ""
                                 end
                     | None => JStr ""
                     end) (JStr "")
              = precedence JNull profile "context" "").
  { unfold precedence, py_or; simpl.
    destruct profile as [p|]; [|reflexivity].
    destruct (lookup "context" p) as [v|]; [|reflexivity].
    destruct (truthy v); reflexivity. }
  rewrite E. reflexivity.
Qed.

Lemma py_or_precedence_context (profile : option (list (string * json))) :
  py_or (precedence JNull profile "context" "") (JStr "")
  = precedence JNull profile "context" "".
Proof.
  unfold precedence, py_or; simpl.
  destruct profile as [p|]; [|reflexivity].
  destruct (lookup "context" p) as [v|]; [|reflexivity].
  destruct (truthy v) eqn:T; [now rewrite T | reflexivity].
Qed.

(** X9.  For a translate request that passes authentication and validation,
    the pipeline is called with the word exactly as received, the two
    resolved languages, and as context the profile's [context] when there
    is a profile and that field is not empty, the empty string otherwise. *)
Theorem translation_pipeline_inputs (env : Env) (request : Request)
    (h : string) (u : User.t) (d : list (string * json)) (word : json)
    (profile : option (list (string * json))) :
  authenticated env request h u ->
  get_json request = Ok (JObj d) ->
  lookup "word" d = Some word ->
  truthy word = true ->
  fetched_profile (profiles_select env "*" (User.id u) (token_of h))
  = profile_json profile ->
  trace (translate env request)
  = full_trace "*" TranslationKickoff (token_of h) (User.id u)
      [("word", word);
       ("source_language",
         precedence (field d "source_language") profile
           "native_language" "English");
       ("target_language",
         precedence (field d "target_language") profile
           "target_language" "Spanish");
       ("user_context", precedence JNull profile "context" "")].
Proof.
  intros A J W T P.
  rewrite (translate_valid _ _ _ _ _ _ _ A J W T P).
  unfold trace; simpl.
  rewrite respond_trace_all, translate_word_trace, py_or_precedence_context.
  reflexivity.
Qed.

(** ** Unknown fields of the body *)

Lemma require_auth_congruence (env : Env) (f f' : Request -> M Response)
    (request request' : Request) :
  headers_Authorization request = headers_Authorization request' ->
  (forall u, f (set_user request u) = f' (set_user request' u)) ->
  require_auth env f request = require_auth env f' request'.
Proof.
  intros H F. unfold require_auth. rewrite <- H.
  destruct (headers_Authorization request) as [h|]; [|reflexivity].
  destruct (negb (truthy (JStr h))); [reflexivity|].
  rewrite extract_token_total.
  unfold bind, try_except, call; simpl.
  destruct (auth_get_user env (token_of h)) as [u|e]; simpl; [|reflexivity].
  now rewrite F.
Qed.

Lemma translate_serve_same_header (env : Env) (request request' : Request)
    (u : User.t) (w sl tl : json) :
  headers_Authorization request = headers_Authorization request' ->
  translate_serve env (set_user request u) w sl tl
  = translate_serve env (set_user request' u) w sl tl.
Proof.
  intros H. unfold translate_serve, request_user, header_token; simpl.
  now rewrite H.
Qed.

Lemma get_random_phrase_serve_same_header (env : Env)
    (request request' : Request) (u : User.t) (words : json) :
  headers_Authorization request = headers_Authorization request' ->
  get_random_phrase_serve env (set_user request u) words
  = get_random_phrase_serve env (set_user request' u) words.
Proof.
  intros H. unfold get_random_phrase_serve, request_user, header_token; simpl.
  now rewrite H.
Qed.

(** X10.  Only the fields the endpoint names count: two requests with the
    same Authorization header whose JSON object bodies agree on [word],
    [source_language] and [target_language] (a missing language and a null
    one being the same) get the same run from the translate endpoint, and
    two whose bodies agree on [words] get the same run from the phrase
    endpoint.  Other fields, and the order of the fields, change nothing. *)
Theorem unknown_fields_are_ignored (env : Env) (request request' : Request)
    (d d' : list (string * json)) :
  headers_Authorization request = headers_Authorization request' ->
  get_json request = Ok (JObj d) ->
  get_json request' = Ok (JObj d') ->
  (lookup "word" d = lookup "word" d' ->
   field d "source_language" = field d' "source_language" ->
   field d "target_language" = field d' "target_language" ->
   translate env request = translate env request')
  /\ (lookup "words" d = lookup "words" d' ->
      get_random_phrase env request = get_random_phrase env request').
Proof.
  intros H J J'. split.
  - intros W S T. apply require_auth_congruence; [exact H|]. intros u.
    unfold translate_view. f_equal.
    destruct (word_rejected d) eqn:R.
    + assert (R' : word_rejected d' = true)
        by (unfold word_rejected in *; now rewrite <- W).
      rewrite (translate_try_rejects _ (set_user request u) d J R).
      rewrite (translate_try_rejects _ (set_user request' u) d' J' R').
      unfold word_error. now rewrite W.
    + unfold word_rejected in R.
      destruct (lookup "word" d) as [w|] eqn:L; [|discriminate].
      apply negb_false_iff in R. symmetry in W.
      rewrite (translate_try_valid _ (set_user request u) d w J L R).
      rewrite (translate_try_valid _ (set_user request' u) d' w J' W R).
      rewrite S, T. now apply translate_serve_same_header.
  - intros W. apply require_auth_congruence; [exact H|]. intros u.
    unfold get_random_phrase_view. f_equal.
    destruct (words_rejected d) eqn:R.
    + assert (R' : words_rejected d' = true)
        by (unfold words_rejected in *; now rewrite <- W).
      rewrite (get_random_phrase_try_rejects _ (set_user request u) d J R).
      rewrite (get_random_phrase_try_rejects _ (set_user request' u) d' J' R').
      unfold words_error. now rewrite W.
    + unfold words_rejected in R.
      destruct (lookup "words" d) as [[| | | |[|x l]|]|] eqn:L;
        try discriminate.
      symmetry in W.
      rewrite (get_random_phrase_try_valid _ (set_user request u) d x l J L).
      rewrite (get_random_phrase_try_valid _ (set_user request' u) d' x l J' W).
      now apply get_random_phrase_serve_same_header.
Qed.

(** ** The translation schema *)

Lemma as_example_items_dumped (l : list ExampleSentence.t) :
  as_example_items (map dump_example l) = Some l.
Proof.
  induction l as [|[s t] l IH]; simpl; [reflexivity|]. now rewrite IH.
Qed.

(** X11.  Serialising a translation result and building a result from the
    serialised object gives back the same result. *)
Theorem translation_round_trip (t : TranslationOutput.t)
    (d : list (string * json)) :
  model_dump (PyTranslation t) = Ok (JObj d) ->
  TranslationOutput_validate d = Ok t.
Proof.
  intros D. injection D as <-. destruct t as [w sl tl pt alts exs n].
  unfold TranslationOutput_validate; simpl.
  now rewrite as_str_items_strings, as_example_items_dumped.
Qed.

(** X12.  When the object names no alternatives, no examples and no notes,
    a result built from it has none: the two lists are empty and the notes
    are the empty string.  The empty values that the gateway's fallback
    passes explicitly are these defaults. *)
Theorem translation_defaults (d : list (string * json))
    (t : TranslationOutput.t) :
  lookup "alternative_translations" d = None ->
  lookup "examples" d = None ->
  lookup "notes" d = None ->
  TranslationOutput_validate d = Ok t ->
  TranslationOutput.alternative_translations t = []
  /\ TranslationOutput.examples t = []
  /\ TranslationOutput.notes t = ""
  /\ TranslationOutput_init (field d "word") (field d "source_language")
       (field d "target_language") (field d "primary_translation") [] [] ""
     = Ok t.
Proof.
  intros A E N. unfold TranslationOutput_validate, field.
  rewrite A, E, N; simpl.
  destruct (lookup "word" d) as [[]|]; simpl; try discriminate;
    destruct (lookup "source_language" d) as [[]|]; simpl; try discriminate;
    destruct (lookup "target_language" d) as [[]|]; simpl; try discriminate;
    destruct (lookup "primary_translation" d) as [[]|]; simpl;
    try discriminate.
  intros V. injection V as <-. repeat split.
Qed.

(** X13.  A required field that is missing, or that is not a string, is
    never filled in silently: building the result raises a validation error
    that names the field. *)
Theorem translation_required_fields (d : list (string * json))
    (name : string) :
  In name required_names ->
  required_field as_str (lookup name d) = None ->
  exists fields,
    TranslationOutput_validate d
    = Raise (ValidationError "TranslationOutput" fields)
    /\ In name fields.
Proof.
  intros I R. unfold TranslationOutput_validate.
  set (w := required_field as_str (lookup "word" d)) in *.
  set (sl := required_field as_str (lookup "source_language" d)) in *.
  set (tl := required_field as_str (lookup "target_language" d)) in *.
  set (pt := required_field as_str (lookup "primary_translation" d)) in *.
  set (alts := defaulted_field _ _ _). set (exs := defaulted_field _ _ _).
  set (n := defaulted_field _ _ _).
  assert (B : In name (refused "word" w ++ refused "source_language" sl
                       ++ refused "target_language" tl
                       ++ refused "primary_translation" pt
                       ++ refused "alternative_translations" alts
                       ++ refused "examples" exs ++ refused "notes" n)).
  { simpl in I. destruct I as [<-|[<-|[<-|[<-|[]]]]].
    - subst w. rewrite R. simpl. auto.
    - subst sl. rewrite R. apply in_or_app. right. simpl. auto.
    - subst tl. rewrite R. do 2 (apply in_or_app; right). simpl. auto.
    - subst pt. rewrite R. do 3 (apply in_or_app; right). simpl. auto. }
  eexists. split; [|exact B].
  simpl in I. destruct I as [<-|[<-|[<-|[<-|[]]]]].
  - subst w. rewrite R. reflexivity.
  - subst sl. rewrite R. destruct w; reflexivity.
  - subst tl. rewrite R. destruct w, sl; reflexivity.
  - subst pt. rewrite R. destruct w, sl, tl; reflexivity.
Qed.

(** ** Unstructured pipeline results at the endpoints *)

Lemma translate_word_fallback (env : Env) (w sl tl c : json)
    (r : CrewOutput) :
  (forall inputs, translation_kickoff env inputs = Ok r) ->
  pydantic r = None ->
  snd (translate_word env w sl tl c)
  = match TranslationOutput_init w sl tl (JStr (raw r)) [] [] "" with
    | Ok t => Ok (PyTranslation t)
    | Raise e => Raise e
    end.
Proof.
  intros K N. unfold translate_word, bind, call, lift, ret; simpl.
  rewrite K; simpl. rewrite N; simpl.
  destruct (TranslationOutput_init w sl tl (JStr (raw r)) [] [] "");
    reflexivity.
Qed.

Lemma generate_random_phrase_fallback (env : Env) (words c : json)
    (r : CrewOutput) :
  (forall inputs, random_phrase_kickoff env inputs = Ok r) ->
  pydantic r = None ->
  snd (generate_random_phrase env words c)
  = match PhraseOutput_init (JStr (raw r)) words with
    | Ok p => Ok (PyPhrase p)
    | Raise e => Raise e
    end.
Proof.
  intros K N. unfold generate_random_phrase, bind, call, lift, ret; simpl.
  rewrite K; simpl. rewrite N; simpl.
  destruct (PhraseOutput_init (JStr (raw r)) words); reflexivity.
Qed.

Lemma respond_ok (env : Env) (m : M pyobj) (o : pyobj) (body : json) :
  snd m = Ok o -> model_dump o = Ok body ->
  snd (respond env m) = Ok (body, 200%Z).
Proof.
  intros G D. unfold respond.
  assert (E : snd (result <- m;; body0 <- lift (model_dump result);;
                   ret (body0, 200%Z)) = Ok (body, 200%Z)).
  { rewrite (outcome_bind_ok _ _ _ G). now rewrite D. }
  now rewrite (boundary_ok _ _ _ E).
Qed.

Lemma respond_raise (env : Env) (m : M pyobj) (e : exn) :
  snd m = Raise e -> snd (respond env m) = Ok (server_error env e).
Proof.
  intros G. unfold respond.
  assert (E : snd (result <- m;; body0 <- lift (model_dump result);;
                   ret (body0, 200%Z)) = Raise e).
  { now apply outcome_bind_raise. }
  now rewrite (boundary_raise _ _ _ E).
Qed.

(** X14.  When the translation pipeline hands back a result without the
    structured attribute, a valid request whose word and resolved languages
    are strings is answered 200 with the complete translation object: the
    word and the resolved languages, the result's text as primary
    translation, empty lists of alternatives and examples, empty notes. *)
Theorem unstructured_translation_is_served (env : Env) (request : Request)
    (h : string) (u : User.t) (d : list (string * json))
    (profile : option (list (string * json))) (r : CrewOutput)
    (w sl tl : string) :
  authenticated env request h u ->
  get_json request = Ok (JObj d) ->
  lookup "word" d = Some (JStr w) ->
  truthy (JStr w) = true ->
  fetched_profile (profiles_select env "*" (User.id u) (token_of h))
  = profile_json profile ->
  precedence (field d "source_language") profile "native_language" "English"
  = JStr sl ->
  precedence (field d "target_language") profile "target_language" "Spanish"
  = JStr tl ->
  (forall inputs, translation_kickoff env inputs = Ok r) ->
  pydantic r = None ->
  outcome (translate env request)
  = Ok (translation_json w sl tl (raw r) [] [] "", 200%Z).
Proof.
  intros A J W T P S L K N.
  rewrite (translate_valid _ _ _ _ _ _ _ A J W T P).
  unfold outcome; simpl. rewrite S, L.
  apply respond_ok with
    (o := PyTranslation
            {| TranslationOutput.word := w;
               TranslationOutput.source_language := sl;
               TranslationOutput.target_language := tl;
               TranslationOutput.primary_translation := raw r;
               TranslationOutput.alternative_translations := [];
               TranslationOutput.examples := [];
               TranslationOutput.notes := "" |}).
  - now rewrite (translate_word_fallback _ _ _ _ _ r K N).
  - reflexivity.
Qed.

(** X15.  The translate endpoint lets any non-empty [word] through, string
    or not.  When the word is not a string and the pipeline hands back a
    result without the structured attribute, building the fallback raises a
    validation error naming [word], and the request is answered 500. *)
Theorem non_string_word_fails_in_fallback (env : Env) (request : Request)
    (h : string) (u : User.t) (d : list (string * json)) (word : json)
    (profile : option (list (string * json))) (r : CrewOutput) :
  authenticated env request h u ->
  get_json request = Ok (JObj d) ->
  lookup "word" d = Some word ->
  truthy word = true ->
  as_str word = None ->
  fetched_profile (profiles_select env "*" (User.id u) (token_of h))
  = profile_json profile ->
  (forall inputs, translation_kickoff env inputs = Ok r) ->
  pydantic r = None ->
  exists fields,
    In "word" fields
    /\ outcome (translate env request)
       = Ok (server_error env (ValidationError "TranslationOutput" fields)).
Proof.
  intros A J W T S P K N.
  rewrite (translate_valid _ _ _ _ _ _ _ A J W T P).
  unfold outcome; simpl.
  eexists. split; [|apply respond_raise;
                    rewrite (translate_word_fallback _ _ _ _ _ r K N);
                    unfold TranslationOutput_init; rewrite S; reflexivity].
  simpl. auto.
Qed.

(** X16.  When the phrase pipeline hands back a result without the
    structured attribute, a request whose words are all strings is answered
    200 with the result's text as phrase and the words of the request,
    unchanged and in the same order. *)
Theorem unstructured_phrase_echoes_words (env : Env) (request : Request)
    (h : string) (u : User.t) (d : list (string * json)) (w : string)
    (ws : list string) (r : CrewOutput) :
  authenticated env request h u ->
  get_json request = Ok (JObj d) ->
  lookup "words" d = Some (JList (map JStr (w :: ws))) ->
  (forall inputs, random_phrase_kickoff env inputs = Ok r) ->
  pydantic r = None ->
  outcome (get_random_phrase env request)
  = Ok (JObj [("phrase", JStr (raw r));
              ("words", JList (map JStr (w :: ws)))], 200%Z).
Proof.
  intros A J W K N. simpl map in W.
  rewrite (get_random_phrase_valid _ _ _ _ _ _ _ A J W).
  unfold outcome; simpl.
  apply respond_ok with
    (o := PyPhrase {| PhraseOutput.phrase := raw r;
                      PhraseOutput.words := w :: ws |}).
  - rewrite (generate_random_phrase_fallback _ _ _ r K N).
    unfold PhraseOutput_init; simpl. now rewrite as_str_items_strings.
  - reflexivity.
Qed.

(** ** Edge cases of the pipeline result and of the body *)

(** X18.  When the pipeline's result has the structured attribute but the
    attribute holds [None], the gateway returns [None] and serialising it
    fails: a valid request is answered 500 with the attribute error's
    message, on both endpoints. *)
Theorem empty_structured_result_is_500 (env : Env) (request : Request)
    (h : string) (u : User.t) (d : list (string * json)) (r : CrewOutput) :
  authenticated env request h u ->
  get_json request = Ok (JObj d) ->
  pydantic r = Some PyNone ->
  (forall x l,
     lookup "words" d = Some (JList (x :: l)) ->
     (forall inputs, random_phrase_kickoff env inputs = Ok r) ->
     outcome (get_random_phrase env request)
     = Ok (error_body
             "An error occurred: 'NoneType' object has no attribute 'model_dump'",
           500%Z))
  /\ (forall word profile,
        lookup "word" d = Some word ->
        truthy word = true ->
        fetched_profile (profiles_select env "*" (User.id u) (token_of h))
        = profile_json profile ->
        (forall inputs, translation_kickoff env inputs = Ok r) ->
        outcome (translate env request)
        = Ok (error_body
                "An error occurred: 'NoneType' object has no attribute 'model_dump'",
              500%Z)).
Proof.
  intros A J N. split.
  - intros x l W K.
    rewrite (get_random_phrase_valid _ _ _ _ _ _ _ A J W).
    unfold outcome; simpl.
    unfold respond, generate_random_phrase, try_except, bind, call, lift, ret;
      simpl.
    rewrite K; simpl. rewrite N; simpl. reflexivity.
  - intros word profile W T P K.
    rewrite (translate_valid _ _ _ _ _ _ _ A J W T P).
    unfold outcome; simpl.
    unfold respond, translate_word, try_except, bind, call, lift, ret; simpl.
    rewrite K; simpl. rewrite N; simpl. reflexivity.
Qed.

Lemma view_answer (env : Env) (f : Request -> M Response) (request : Request)
    (h : string) (u : User.t) (r : Response) :
  authenticated env request h u ->
  f (set_user request u) = ret r ->
  require_auth env
    (fun request' => try_except (f request') (on_error env)) request
  = ([AuthGetUser (token_of h)], Ok r).
Proof.
  intros A F. rewrite (require_auth_accepted _ _ _ _ _ A). now rewrite F.
Qed.

Lemma view_raises (env : Env) (f : Request -> M Response) (request : Request)
    (h : string) (u : User.t) (e : exn) :
  authenticated env request h u ->
  f (set_user request u) = raise e ->
  require_auth env
    (fun request' => try_except (f request') (on_error env)) request
  = ([AuthGetUser (token_of h)], Ok (server_error env e)).
Proof.
  intros A F. rewrite (require_auth_accepted _ _ _ _ _ A). now rewrite F.
Qed.

(** X19.  An authenticated request whose body parses to an empty value
    (null, false, zero, the empty string, the empty list or the empty
    object) is answered 400 by both endpoints, after the identity call and
    nothing else. *)
Theorem empty_body_is_400 (env : Env) (request : Request) (h : string)
    (u : User.t) (data : json) :
  authenticated env request h u ->
  get_json request = Ok data ->
  truthy data = false ->
  get_random_phrase env request
  = ([AuthGetUser (token_of h)],
     Ok (error_body "Request body must include 'words' array", 400%Z))
  /\ translate env request
     = ([AuthGetUser (token_of h)],
        Ok (error_body "Request body must include 'word'", 400%Z)).
Proof.
  intros A J T. split.
  - apply (view_answer env (get_random_phrase_try env) _ _ _ _ A).
    unfold get_random_phrase_try, lacks; simpl. rewrite J, bind_lift_ok, T.
    reflexivity.
  - apply (view_answer env (translate_try env) _ _ _ _ A).
    unfold translate_try, lacks; simpl. rewrite J, bind_lift_ok, T.
    reflexivity.
Qed.

(** X20.  A body that is not empty and not a JSON object is never served.
    A number or [true] is answered 500, the membership test raising on it.
    A list or a string is answered 400 when it does not contain the field
    name (as an element, respectively as a substring) and 500 when it does,
    the field access then raising.  Shown for the translate endpoint. *)
Theorem non_object_body_of_translate (env : Env) (request : Request)
    (h : string) (u : User.t) (data : json) :
  authenticated env request h u ->
  get_json request = Ok data ->
  truthy data = true ->
  String.eqb (type_name data) "dict" = false ->
  (forall e, py_contains "word" data = Raise e ->
     translate env request
     = ([AuthGetUser (token_of h)], Ok (server_error env e)))
  /\ (py_contains "word" data = Ok false ->
      translate env request
      = ([AuthGetUser (token_of h)],
         Ok (error_body "Request body must include 'word'", 400%Z)))
  /\ (py_contains "word" data = Ok true ->
      translate env request
      = ([AuthGetUser (token_of h)],
         Ok (server_error env (AttributeError (type_name data) "get")))).
Proof.
  intros A J T N. repeat split.
  - intros e C. apply (view_raises env (translate_try env) _ _ _ _ A).
    unfold translate_try, lacks; simpl. rewrite J, bind_lift_ok, T; simpl.
    now rewrite C.
  - intros C. apply (view_answer env (translate_try env) _ _ _ _ A).
    unfold translate_try, lacks; simpl. rewrite J, bind_lift_ok, T; simpl.
    now rewrite C.
  - intros C. apply (view_raises env (translate_try env) _ _ _ _ A).
    unfold translate_try, lacks; simpl. rewrite J, bind_lift_ok, T; simpl.
    rewrite C, bind_lift_ok; simpl.
    destruct data; try reflexivity. discriminate N.
Qed.

(** ** The header check *)

(** X21.  The 'Authorization header is required' answer is given exactly
    when the header is missing or empty: with any other header the answer
    of either endpoint differs from it.  In that case no external call is
    made, so an empty header is not sent to the identity service. *)
Theorem header_required_iff_missing_or_empty (env : Env)
    (request : Request) :
  (outcome (translate env request)
   = Ok (error_body "Authorization header is required", 401%Z)
   <-> headers_Authorization request = None
       \/ headers_Authorization request = Some "")
  /\ (outcome (get_random_phrase env request)
      = Ok (error_body "Authorization header is required", 401%Z)
      <-> headers_Authorization request = None
          \/ headers_Authorization request = Some "")
  /\ (headers_Authorization request = None
      \/ headers_Authorization request = Some "" ->
      trace (translate env request) = []
      /\ trace (get_random_phrase env request) = []).
Proof.
  assert (G : forall f,
             (forall request', returns view_status (f request')) ->
             (snd (require_auth env f request)
              = Ok (error_body "Authorization header is required", 401%Z)
              <-> headers_Authorization request = None
                  \/ headers_Authorization request = Some "")).
  { intros f F. split.
    - intros E. destruct (headers_Authorization request) as [h|] eqn:H;
        [|now left].
      destruct h as [|c h]; [now right|]. exfalso.
      destruct (auth_get_user env (token_of (String c h))) as [u|e] eqn:R.
      + rewrite (require_auth_accepted env f request _ u
                   (conj H (conj eq_refl R))) in E. simpl in E.
        revert E. apply (returns_not view_status); [apply F|].
        unfold view_status; simpl. intros [S|[S|S]]; discriminate S.
      + rewrite (require_auth_rejected env f request _ e H eq_refl R) in E.
        simpl in E. discriminate E.
    - intros [H|H].
      + now rewrite (require_auth_missing env f request H).
      + now rewrite (require_auth_empty env f request "" H eq_refl). }
  split; [|split].
  - apply G, translate_view_status.
  - apply G, get_random_phrase_view_status.
  - intros [H|H]; unfold translate, get_random_phrase, trace.
    + now rewrite !(require_auth_missing env _ request H).
    + now rewrite !(require_auth_empty env _ request "" H eq_refl).
Qed.

(** X22.  Every request with a non-empty Authorization header costs
    exactly one call to the identity service: it is the first external call
    of the run, it is made with the credential taken from the header, and no
    later call of the run goes to the identity service.  This holds whatever
    the body is, even one that cannot be parsed. *)
Theorem identity_is_checked_first (env : Env) (request : Request)
    (h : string) :
  headers_Authorization request = Some h ->
  truthy (JStr h) = true ->
  (exists rest,
     trace (get_random_phrase env request) = AuthGetUser (token_of h) :: rest
     /\ forall token, ~ In (AuthGetUser token) rest)
  /\ (exists rest,
        trace (translate env request) = AuthGetUser (token_of h) :: rest
        /\ forall token, ~ In (AuthGetUser token) rest).
Proof.
  intros H T.
  assert (G : forall columns kick f,
             (forall inputs token, kick inputs <> AuthGetUser token) ->
             (forall u,
                view_shape env columns kick (User.id u) (token_of h)
                  (fst (f (set_user request u)),
                   snd (f (set_user request u)))) ->
             exists rest,
               fst (require_auth env f request)
               = AuthGetUser (token_of h) :: rest
               /\ forall token, ~ In (AuthGetUser token) rest).
  { intros columns kick f K F.
    destruct (auth_get_user env (token_of h)) as [u|e] eqn:R.
    - rewrite (require_auth_accepted env f request h u (conj H (conj T R))).
      simpl. eexists. split; [reflexivity|].
      intros token I. specialize (F u).
      destruct (f (set_user request u)) as [t r]; simpl in *.
      inversion F; subst; simpl in I;
        repeat (destruct I as [I|I]; try discriminate I);
        try contradiction.
      + now apply (K inputs token).
      + now apply (K inputs token).
    - rewrite (require_auth_rejected env f request h e H T R).
      simpl. eexists. split; [reflexivity|]. intros token []. }
  split.
  - apply (G "context" RandomPhraseKickoff); [discriminate|].
    intros u. now apply get_random_phrase_view_shape.
  - apply (G "*" TranslationKickoff); [discriminate|].
    intros u. now apply translate_view_shape.
Qed.

(** ** The further properties at sample requests *)

Lemma success_needs_all_collaborators_witness :
  exists token u inputs,
    auth_get_user (Sample.env (Ok []) (Ok Sample.structured)) token = Ok u
    /\ trace (translate (Sample.env (Ok []) (Ok Sample.structured))
                (Sample.request (Some Sample.bearer)
                   (JObj [("word", JStr "hi")])))
       = full_trace "*" TranslationKickoff token (User.id u) inputs.
Proof.
  apply (proj2 (success_needs_all_collaborators
                  (Sample.env (Ok []) (Ok Sample.structured))
                  (Sample.request (Some Sample.bearer)
                     (JObj [("word", JStr "hi")]))
                  (translation_json "hi" "English" "Spanish" "hola" [] [] ""))).
  reflexivity.
Defined.

Lemma failures_carry_error_payload_witness :
  exists msg,
    fst (error_body "'word' cannot be empty", 400%Z) = error_body msg.
Proof.
  apply (proj2 (failures_carry_error_payload
                  (Sample.env (Ok []) (Ok Sample.structured))
                  (Sample.request (Some Sample.bearer)
                     (JObj [("word", JStr "")]))
                  (error_body "'word' cannot be empty", 400%Z)
                  ltac:(discriminate))).
  reflexivity.
Defined.

Lemma refusals_stop_before_profile_witness :
  exists token u,
    auth_get_user (Sample.env (Ok []) (Ok Sample.structured)) token = Ok u
    /\ trace (translate (Sample.env (Ok []) (Ok Sample.structured))
                (Sample.request (Some Sample.bearer)
                   (JObj [("word", JStr "")])))
       = [AuthGetUser token].
Proof.
  apply (proj2 (proj2 (refusals_stop_before_profile
                         (Sample.env (Ok []) (Ok Sample.structured))
                         (Sample.request (Some Sample.bearer)
                            (JObj [("word", JStr "")]))
                         (error_body "'word' cannot be empty", 400%Z))
                  eq_refl)).
  reflexivity.
Defined.

Lemma any_scheme_is_accepted_witness :
  extract_token "Token abc123" = Ok "abc123".
Proof. exact (any_scheme_is_accepted "Token" "abc123" eq_refl eq_refl). Defined.

Lemma token_has_no_space_witness :
  contains_char space "abc" = false.
Proof. exact (token_has_no_space "Bearer abc def" "abc" eq_refl). Defined.

Lemma phrase_context_resolution_witness :
  trace (get_random_phrase
           (Sample.env (Ok [Sample.profile; JNull]) (Ok Sample.structured))
           (Sample.request (Some Sample.bearer)
              (JObj [("words", JList [JStr "sun"])])))
  = full_trace "context" RandomPhraseKickoff "abc123" "u1"
      [("words",
         JStr (as_text
                 (Sample.env (Ok [Sample.profile; JNull])
                    (Ok Sample.structured))
                 (JList [JStr "sun"])));
       ("user_context",
         JStr (as_text
                 (Sample.env (Ok [Sample.profile; JNull])
                    (Ok Sample.structured))
                 (JStr "I am a cook")))].
Proof.
  exact (proj2 (phrase_context_resolution
                  (Sample.env (Ok [Sample.profile; JNull])
                     (Ok Sample.structured))
                  (Sample.request (Some Sample.bearer)
                     (JObj [("words", JList [JStr "sun"])]))
                  Sample.bearer Sample.u1 [("words", JList [JStr "sun"])]
                  (JStr "sun") [] (sample_bearer_passes _ _ _)
                  eq_refl eq_refl)).
Defined.

Lemma translation_pipeline_inputs_witness :
  trace (translate (Sample.env (Ok [Sample.profile]) (Ok Sample.structured))
           (Sample.request (Some Sample.bearer)
              (JObj [("word", JStr "hi")])))
  = full_trace "*" TranslationKickoff "abc123" "u1"
      [("word", JStr "hi");
       ("source_language", JStr "French");
       ("target_language", JStr "German");
       ("user_context", JStr "I am a cook")].
Proof.
  exact (translation_pipeline_inputs
           (Sample.env (Ok [Sample.profile]) (Ok Sample.structured))
           (Sample.request (Some Sample.bearer) (JObj [("word", JStr "hi")]))
           Sample.bearer Sample.u1 [("word", JStr "hi")] (JStr "hi")
           (Some Sample.profile_row)
           (sample_bearer_passes _ _ _) eq_refl eq_refl eq_refl eq_refl).
Defined.

Lemma unknown_fields_are_ignored_witness :
  translate (Sample.env (Ok []) (Ok Sample.structured))
    (Sample.request (Some Sample.bearer)
       (JObj [("word", JStr "hi"); ("source_language", JNull)]))
  = translate (Sample.env (Ok []) (Ok Sample.structured))
      (Sample.request (Some Sample.bearer)
         (JObj [("debug", JBool true); ("word", JStr "hi")])).
Proof.
  exact (proj1 (unknown_fields_are_ignored
                  (Sample.env (Ok []) (Ok Sample.structured))
                  (Sample.request (Some Sample.bearer)
                     (JObj [("word", JStr "hi"); ("source_language", JNull)]))
                  (Sample.request (Some Sample.bearer)
                     (JObj [("debug", JBool true); ("word", JStr "hi")]))
                  [("word", JStr "hi"); ("source_language", JNull)]
                  [("debug", JBool true); ("word", JStr "hi")]
                  eq_refl eq_refl eq_refl)
           eq_refl eq_refl eq_refl).
Defined.

Lemma translation_round_trip_witness :
  TranslationOutput_validate
    [("word", JStr "hi"); ("source_language", JStr "English");
     ("target_language", JStr "Spanish");
     ("primary_translation", JStr "hola");
     ("alternative_translations", JList []); ("examples", JList []);
     ("notes", JStr "")]
  = Ok Sample.hola.
Proof. exact (translation_round_trip Sample.hola _ eq_refl). Defined.

Lemma translation_defaults_witness :
  TranslationOutput.alternative_translations Sample.hola = []
  /\ TranslationOutput.examples Sample.hola = []
  /\ TranslationOutput.notes Sample.hola = ""
  /\ TranslationOutput_init (JStr "hi") (JStr "English") (JStr "Spanish")
       (JStr "hola") [] [] ""
     = Ok Sample.hola.
Proof.
  exact (translation_defaults
           [("word", JStr "hi"); ("source_language", JStr "English");
            ("target_language", JStr "Spanish");
            ("primary_translation", JStr "hola")]
           Sample.hola eq_refl eq_refl eq_refl eq_refl).
Defined.

Lemma translation_required_fields_witness :
  exists fields,
    TranslationOutput_validate
      [("word", JStr "hi"); ("source_language", JNum 3);
       ("target_language", JStr "Spanish");
       ("primary_translation", JStr "hola")]
    = Raise (ValidationError "TranslationOutput" fields)
    /\ In "source_language" fields.
Proof.
  apply (translation_required_fields
           [("word", JStr "hi"); ("source_language", JNum 3);
            ("target_language", JStr "Spanish");
            ("primary_translation", JStr "hola")]
           "source_language").
  - simpl. auto.
  - reflexivity.
Defined.

Lemma unstructured_translation_is_served_witness :
  outcome (translate (Sample.env (Ok [Sample.profile])
                        (Ok Sample.unstructured))
             (Sample.request (Some Sample.bearer)
                (JObj [("word", JStr "hi")])))
  = Ok (translation_json "hi" "French" "German" "hola" [] [] "", 200%Z).
Proof.
  exact (unstructured_translation_is_served
           (Sample.env (Ok [Sample.profile]) (Ok Sample.unstructured))
           (Sample.request (Some Sample.bearer) (JObj [("word", JStr "hi")]))
           Sample.bearer Sample.u1 [("word", JStr "hi")]
           (Some Sample.profile_row) Sample.unstructured "hi" "French" "German"
           (sample_bearer_passes _ _ _) eq_refl eq_refl eq_refl eq_refl
           eq_refl eq_refl (fun _ => eq_refl) eq_refl).
Defined.

Lemma non_string_word_fails_in_fallback_witness :
  exists fields,
    In "word" fields
    /\ outcome (translate (Sample.env (Ok []) (Ok Sample.unstructured))
                  (Sample.request (Some Sample.bearer)
                     (JObj [("word", JNum 5)])))
       = Ok (server_error (Sample.env (Ok []) (Ok Sample.unstructured))
               (ValidationError "TranslationOutput" fields)).
Proof.
  exact (non_string_word_fails_in_fallback
           (Sample.env (Ok []) (Ok Sample.unstructured))
           (Sample.request (Some Sample.bearer) (JObj [("word", JNum 5)]))
           Sample.bearer Sample.u1 [("word", JNum 5)] (JNum 5) None
           Sample.unstructured
           (sample_bearer_passes _ _ _) eq_refl eq_refl eq_refl eq_refl
           eq_refl (fun _ => eq_refl) eq_refl).
Defined.

Lemma unstructured_phrase_echoes_words_witness :
  outcome (get_random_phrase (Sample.env (Ok []) (Ok Sample.unstructured))
             (Sample.request (Some Sample.bearer)
                (JObj [("words", JList [JStr "sun"; JStr "run"])])))
  = Ok (JObj [("phrase", JStr "hola");
              ("words", JList [JStr "sun"; JStr "run"])], 200%Z).
Proof.
  exact (unstructured_phrase_echoes_words
           (Sample.env (Ok []) (Ok Sample.unstructured))
           (Sample.request (Some Sample.bearer)
              (JObj [("words", JList [JStr "sun"; JStr "run"])]))
           Sample.bearer Sample.u1
           [("words", JList [JStr "sun"; JStr "run"])] "sun" ["run"]
           Sample.unstructured
           (sample_bearer_passes _ _ _) eq_refl eq_refl (fun _ => eq_refl)
           eq_refl).
Defined.

Lemma empty_structured_result_is_500_witness :
  outcome (translate
             (Sample.env (Ok [])
                (Ok {| pydantic := Some PyNone; raw := "hola" |}))
             (Sample.request (Some Sample.bearer)
                (JObj [("word", JStr "hi")])))
  = Ok (error_body
          "An error occurred: 'NoneType' object has no attribute 'model_dump'",
        500%Z).
Proof.
  exact (proj2 (empty_structured_result_is_500
                  (Sample.env (Ok [])
                     (Ok {| pydantic := Some PyNone; raw := "hola" |}))
                  (Sample.request (Some Sample.bearer)
                     (JObj [("word", JStr "hi")]))
                  Sample.bearer Sample.u1 [("word", JStr "hi")]
                  {| pydantic := Some PyNone; raw := "hola" |}
                  (sample_bearer_passes _ _ _) eq_refl eq_refl)
           (JStr "hi") None eq_refl eq_refl eq_refl (fun _ => eq_refl)).
Defined.

Lemma empty_body_is_400_witness :
  translate (Sample.env (Ok []) (Ok Sample.structured))
    (Sample.request (Some Sample.bearer) JNull)
  = ([AuthGetUser "abc123"],
     Ok (error_body "Request body must include 'word'", 400%Z)).
Proof.
  exact (proj2 (empty_body_is_400
                  (Sample.env (Ok []) (Ok Sample.structured))
                  (Sample.request (Some Sample.bearer) JNull)
                  Sample.bearer Sample.u1 JNull
                  (sample_bearer_passes _ _ _) eq_refl eq_refl)).
Defined.

Lemma non_object_body_of_translate_witness :
  translate (Sample.env (Ok []) (Ok Sample.structured))
    (Sample.request (Some Sample.bearer) (JList [JStr "word"]))
  = ([AuthGetUser "abc123"],
     Ok (error_body
           "An error occurred: 'list' object has no attribute 'get'", 500%Z))
  /\ translate (Sample.env (Ok []) (Ok Sample.structured))
       (Sample.request (Some Sample.bearer) (JNum 5))
     = ([AuthGetUser "abc123"],
        Ok (error_body
              "An error occurred: argument of type 'int' is not iterable",
              500%Z)).
Proof.
  split.
  - exact (proj2 (proj2 (non_object_body_of_translate
                           (Sample.env (Ok []) (Ok Sample.structured))
                           (Sample.request (Some Sample.bearer)
                              (JList [JStr "word"]))
                           Sample.bearer Sample.u1 (JList [JStr "word"])
                           (sample_bearer_passes _ _ _) eq_refl eq_refl
                           eq_refl))
             eq_refl).
  - exact (proj1 (non_object_body_of_translate
                    (Sample.env (Ok []) (Ok Sample.structured))
                    (Sample.request (Some Sample.bearer) (JNum 5))
                    Sample.bearer Sample.u1 (JNum 5)
                    (sample_bearer_passes _ _ _) eq_refl eq_refl eq_refl)
             (TypeError "argument of type 'int' is not iterable") eq_refl).
Defined.

Lemma header_required_iff_missing_or_empty_witness :
  outcome (translate (Sample.env (Ok []) (Ok Sample.structured))
             (Sample.request (Some "") (JObj [("word", JStr "hi")])))
  = Ok (error_body "Authorization header is required", 401%Z)
  /\ trace (translate (Sample.env (Ok []) (Ok Sample.structured))
               (Sample.request (Some "") (JObj [("word", JStr "hi")])))
     = [].
Proof.
  destruct (header_required_iff_missing_or_empty
              (Sample.env (Ok []) (Ok Sample.structured))
              (Sample.request (Some "") (JObj [("word", JStr "hi")])))
    as (T & _ & N).
  split.
  - exact (proj2 T (or_intror eq_refl)).
  - exact (proj1 (N (or_intror eq_refl))).
Defined.

Lemma identity_is_checked_first_witness :
  exists rest,
    trace (translate (Sample.env (Ok []) (Ok Sample.structured))
             {| headers_Authorization := Some "Bearer abc123";
                get_json := Raise (Exception "400 Bad Request");
                user := None |})
    = AuthGetUser "abc123" :: rest
    /\ forall token, ~ In (AuthGetUser token) rest.
Proof.
  exact (proj2 (identity_is_checked_first
                  (Sample.env (Ok []) (Ok Sample.structured))
                  {| headers_Authorization := Some "Bearer abc123";
                     get_json := Raise (Exception "400 Bad Request");
                     user := None |}
                  "Bearer abc123" eq_refl eq_refl)).
Defined.
